(** * Slide_Sampler: patch sampling from whole-slide images

    A shallow embedding of [slide_sampler.py].

    Conventions of the embedding.
    - Python and NumPy floating-point values are idealised as exact
      rationals ([Q]); the only non-finite values the module can create,
      those of a NumPy division by zero, are kept apart in [npfloat].
    - Python exceptions are values of [PyError]; a method returns an
      [Outcome].  The two sampling loops have no bound on their number of
      iterations: they read their random numbers from a finite tape, and
      [OutOfDraws] says that the tape ended before the loop did.
    - The libraries the module calls (OpenSlide, PIL, scikit-image) are not
      part of it: an OpenSlide handle is a record of what the module reads
      from it, and the operations of PIL and of scikit-image are the methods
      of two classes, [Imaging] and [Skimage], over which the module and its
      properties are stated.
    - [print] calls have no effect on the state and are left out. *)

From Stdlib.Strings Require Import String Byte.
From Stdlib Require Import ZArith QArith Qabs Qround List Bool Lia Lqa.
Import ListNotations.

Set Implicit Arguments.

(** ** Exceptions and outcomes *)

(** Every exception of the module is a plain [Exception] with a message; the
    constructors name the messages.  The others are the built-in exceptions
    that the operations used by the module raise. *)
Inductive PyError : Type :=
| LevelNotFound (available : list Q)
    (* 'Level not found for desired downsampling. Available ... {}' *)
| InconsistentGeometry  (* 'Inconsistent WSI and annotation mask' *)
| MaskTypeError         (* 'Background mask not boolean' *)
| NameError (name : string)
| AttributeError (attr : string)
| IndexError
| ValueError
| OpenSlideError.

Inductive Outcome (A : Type) : Type :=
| Returned (a : A)
| Raised (e : PyError)
| OutOfDraws.

Arguments Raised {A} e.
Arguments OutOfDraws {A}.

Definition bind {A B : Type} (m : Outcome A) (k : A -> Outcome B) : Outcome B :=
  match m with
  | Returned a => k a
  | Raised e => Raised e
  | OutOfDraws => OutOfDraws
  end.

(** Whether a call came back with a value. *)
Definition returned {A : Type} (m : Outcome A) : bool :=
  match m with
  | Returned _ => true
  | _ => false
  end.

Declare Scope py_scope.
Delimit Scope py_scope with py.
Notation "x <- m ;; k" := (bind m (fun x => k))
  (at level 100, m at next level, right associativity) : py_scope.
Open Scope py_scope.

(** ** Numbers *)

Definition Qltb (x y : Q) : bool := negb (Qle_bool y x).

(** [int(q)]: truncation towards zero. *)
Definition py_int (q : Q) : Z :=
  if Qltb q 0 then Qceiling q else Qfloor q.

(** [.astype(np.uint32)] of an integral value: reduction modulo 2^32. *)
Definition astype_uint32 (z : Z) : Z := z mod 2 ^ 32.

(** The result of a NumPy true division: NumPy warns on a zero divisor and
    returns an infinity or a NaN where Python would raise. *)
Inductive npfloat : Type :=
| Finite (q : Q)
| PosInf
| NegInf
| NaN.

Definition np_divide (x y : Q) : npfloat :=
  if Qeq_bool y 0 then
    if Qltb 0 x then PosInf else if Qltb x 0 then NegInf else NaN
  else Finite (x / y).

(** [v > c] and [v < c] for a finite [c]; a NaN compares false. *)
Definition np_gt (v : npfloat) (c : Q) : bool :=
  match v with
  | Finite q => Qltb c q
  | PosInf => true
  | NegInf | NaN => false
  end.

Definition np_lt (v : npfloat) (c : Q) : bool :=
  match v with
  | Finite q => Qltb q c
  | NegInf => true
  | PosInf | NaN => false
  end.

(** ** Sequences *)

(** [l[i]] for a non-negative index. *)
Definition getitem {A : Type} (l : list A) (i : nat) : Outcome A :=
  match nth_error l i with
  | Some a => Returned a
  | None => Raised IndexError
  end.

(** [min(l)]: the first of the smallest elements; [ValueError] on an empty
    sequence. *)
Fixpoint py_min_from (m : Q) (l : list Q) : Q :=
  match l with
  | [] => m
  | x :: r => py_min_from (if Qltb x m then x else m) r
  end.

Definition py_min (l : list Q) : Outcome Q :=
  match l with
  | [] => Raised ValueError
  | x :: r => Returned (py_min_from x r)
  end.

(** [l.index(v)]: the first position whose element equals [v]. *)
Fixpoint py_index (v : Q) (l : list Q) : Outcome nat :=
  match l with
  | [] => Raised ValueError
  | x :: r => if Qeq_bool x v then Returned 0%nat
              else n <- py_index v r ;; Returned (S n)
  end.

(** [l[start:stop]] for non-negative bounds: bounds beyond the end are
    clipped, and the slice is empty when [stop <= start]. *)
Definition slice {A : Type} (start stop : nat) (l : list A) : list A :=
  firstn (stop - start) (skipn start l).

(** ** Arrays *)

(** A two-dimensional [np.ndarray], row by row. *)
Definition ndarray (A : Type) : Type := list (list A).

Definition byte_val (b : byte) : Q := inject_Z (Z.of_N (Byte.to_N b)).

Definition Qsum (l : list Q) : Q := fold_left Qplus l 0.

(** [np.sum(a)] over all elements. *)
Definition np_sum (a : ndarray Q) : Q := Qsum (concat a).

(** [a[i:i2, j:j2]]. *)
Definition slice2 {A : Type} (i i2 j j2 : nat) (a : ndarray A) : ndarray A :=
  map (slice j j2) (slice i i2 a).

(** [x.max()] of a [uint8] array; NumPy raises [ValueError] on an array
    without elements. *)
Definition ndarray_max (x : ndarray byte) : Outcome N :=
  match concat x with
  | [] => Raised ValueError
  | b :: r => Returned (fold_left N.max (map Byte.to_N r) (Byte.to_N b))
  end.

(** [x.astype(np.float32)] of a [uint8] array. *)
Definition astype_float32 (x : ndarray byte) : ndarray Q :=
  map (map byte_val) x.

(** [a / 255.] elementwise. *)
Definition div255 (a : ndarray Q) : ndarray Q :=
  map (map (fun v => v / 255)) a.

(** A NumPy array together with its [dtype], for the arrays whose element
    type is decided by a library. *)
Inductive Array : Type :=
| BoolArray (a : ndarray bool)
| UInt8Array (a : ndarray byte)
| FloatArray (a : ndarray Q).

Inductive DType : Type := dt_bool | dt_uint8 | dt_float.

Definition dtype (a : Array) : DType :=
  match a with
  | BoolArray _ => dt_bool
  | UInt8Array _ => dt_uint8
  | FloatArray _ => dt_float
  end.

(** [a != bool] on dtypes. *)
Definition dtype_neq_bool (d : DType) : bool :=
  match d with
  | dt_bool => false
  | _ => true
  end.

(** ** Multi-resolution images *)

(** What the module reads from an [openslide.OpenSlide] object; [Image] is
    a [PIL.Image].  Levels are positions in [level_downsamples]. *)
Record OpenSlide (Image : Type) : Type := {
  dimensions : Z * Z;
  level_downsamples : list Q;
  level_dimensions : list (Z * Z);
  read_region : Z * Z -> nat -> Z * Z -> Image
}.

(** OpenSlide gives a handle at least one level, and positive factors. *)
Definition wf_slide {Image : Type} (img : OpenSlide Image) : Prop :=
  level_downsamples img <> [] /\
  Forall (fun f => 0 < f) (level_downsamples img).

(** The operations of PIL, NumPy and OpenSlide on images:
    [convert mode im] is [im.convert(mode)], [asarray im] is
    [np.asarray(im)] of an image of mode 'L', [asarray_rgb im] that of an
    image of mode 'RGB', and [open_slide file] is
    [openslide.OpenSlide(file)]. *)
Class Imaging (Image : Type) : Type := {
  convert : string -> Image -> Image;
  asarray : Image -> ndarray byte;
  asarray_rgb : Image -> ndarray (byte * byte * byte);
  open_slide : string -> Outcome (OpenSlide Image)
}.

(** The operations of scikit-image used by the mask pipeline:
    [color.convert_colorspace(a, 'RGB', 'HSV')], [filters.threshold_otsu],
    [morphology.disk], [morphology.closing] and [morphology.opening].  The
    threshold and the two morphological operations may raise, and it is for
    the library to say which dtype the arrays they return have. *)
Class Skimage : Type := {
  Footprint : Type;
  convert_colorspace_RGB_HSV : ndarray (byte * byte * byte) -> ndarray (Q * Q * Q);
  threshold_otsu : ndarray Q -> Outcome Q;
  disk : Z -> Footprint;
  closing : Array -> Footprint -> Outcome Array;
  opening : Array -> Footprint -> Outcome Array
}.

(** A patch record, the [info] dict of the samplers; [class] is [None] while
    the key is absent. *)
Module Info.
Record t : Type := {
  w : Z;
  h : Z;
  parent : string;
  level : nat;
  size : Z;
  class : option Z
}.

Definition set_class (c : Z) (info : t) : t :=
  {| w := w info; h := h info; parent := parent info; level := level info;
     size := size info; class := Some c |}.

(** The keys of the dict. *)
Definition keys (info : t) : list string :=
  ["w"; "h"; "parent"; "level"; "size"]%string ++
  match class info with
  | Some _ => ["class"%string]
  | None => []
  end.
End Info.

(** A [pd.DataFrame] of patch records. *)
Record DataFrame : Type := {
  columns : list string;
  rows : list Info.t
}.

(** [frame.append(info, ignore_index=1)]: the record becomes the last row,
    and a key that is no column yet becomes one. *)
Definition frame_append (frame : DataFrame) (info : Info.t) : DataFrame :=
  {| columns :=
       columns frame ++
       filter (fun k => negb (existsb (String.eqb k) (columns frame)))
              (Info.keys info);
     rows := rows frame ++ [info] |}.

(** ** The module-level generate_background_mask *)

Section BackgroundMask.

Context {Image : Type} {PIL : Imaging Image} {SK : Skimage}.

Definition generate_background_mask (wsi : OpenSlide Image) (level : nat)
  : Outcome Array :=
  let disk_radius := 10%Z in
  size <- getitem (level_dimensions wsi) level ;;
  let low_res := convert "RGB" (read_region wsi (0, 0)%Z level size) in
  let low_res_numpy := asarray_rgb low_res in
  let low_res_numpy_hsv := convert_colorspace_RGB_HSV low_res_numpy in
  let saturation := map (map (fun p => snd (fst p))) low_res_numpy_hsv in
  theshold <- threshold_otsu saturation ;;
  let high_saturation := BoolArray (map (map (fun v => Qltb theshold v)) saturation) in
  let disk_object := disk disk_radius in
  mask <- closing high_saturation disk_object ;;
  mask <- opening mask disk_object ;;
  if dtype_neq_bool (dtype mask) then Raised MaskTypeError
  else Returned mask.

End BackgroundMask.

(** ** The class Slide_Sampler *)

Module Slide_Sampler.

Section Methods.

Context {Image : Type} {PIL : Imaging Image}.

(** The attributes of a sampler.  Those of the first group are set by
    [__init__]; the others are set by later calls and are [None] while the
    object has no such attribute.  The values of [size_at_background_level]
    are those of [np.uint32]. *)
Record t : Type := {
  wsi_file : string;
  wsi : OpenSlide Image;
  desired_downsampling : Q;
  size : Z;
  level : nat;
  downsampling : Q;
  width_available : Z;
  height_available : Z;
  background_mask : option (ndarray Q);
  background_mask_level : option nat;
  background_mask_downsampling : option Q;
  size_at_background_level : option Z;
  annotation_mask_file : option string;
  annotation_mask : option (OpenSlide Image);
  annotation_mask_level : option nat;
  annotation_mask_downsampling : option Q
}.

Definition set_background_mask (v : ndarray Q) (s : t) : t :=
  {| wsi_file := wsi_file s; wsi := wsi s;
     desired_downsampling := desired_downsampling s; size := size s;
     level := level s; downsampling := downsampling s;
     width_available := width_available s;
     height_available := height_available s;
     background_mask := Some v;
     background_mask_level := background_mask_level s;
     background_mask_downsampling := background_mask_downsampling s;
     size_at_background_level := size_at_background_level s;
     annotation_mask_file := annotation_mask_file s;
     annotation_mask := annotation_mask s;
     annotation_mask_level := annotation_mask_level s;
     annotation_mask_downsampling := annotation_mask_downsampling s |}.

Definition set_background_mask_level (v : nat) (s : t) : t :=
  {| wsi_file := wsi_file s; wsi := wsi s;
     desired_downsampling := desired_downsampling s; size := size s;
     level := level s; downsampling := downsampling s;
     width_available := width_available s;
     height_available := height_available s;
     background_mask := background_mask s;
     background_mask_level := Some v;
     background_mask_downsampling := background_mask_downsampling s;
     size_at_background_level := size_at_background_level s;
     annotation_mask_file := annotation_mask_file s;
     annotation_mask := annotation_mask s;
     annotation_mask_level := annotation_mask_level s;
     annotation_mask_downsampling := annotation_mask_downsampling s |}.

Definition set_background_mask_downsampling (v : Q) (s : t) : t :=
  {| wsi_file := wsi_file s; wsi := wsi s;
     desired_downsampling := desired_downsampling s; size := size s;
     level := level s; downsampling := downsampling s;
     width_available := width_available s;
     height_available := height_available s;
     background_mask := background_mask s;
     background_mask_level := background_mask_level s;
     background_mask_downsampling := Some v;
     size_at_background_level := size_at_background_level s;
     annotation_mask_file := annotation_mask_file s;
     annotation_mask := annotation_mask s;
     annotation_mask_level := annotation_mask_level s;
     annotation_mask_downsampling := annotation_mask_downsampling s |}.

Definition set_size_at_background_level (v : Z) (s : t) : t :=
  {| wsi_file := wsi_file s; wsi := wsi s;
     desired_downsampling := desired_downsampling s; size := size s;
     level := level s; downsampling := downsampling s;
     width_available := width_available s;
     height_available := height_available s;
     background_mask := background_mask s;
     background_mask_level := background_mask_level s;
     background_mask_downsampling := background_mask_downsampling s;
     size_at_background_level := Some v;
     annotation_mask_file := annotation_mask_file s;
     annotation_mask := annotation_mask s;
     annotation_mask_level := annotation_mask_level s;
     annotation_mask_downsampling := annotation_mask_downsampling s |}.

Definition set_annotation_mask_file (v : string) (s : t) : t :=
  {| wsi_file := wsi_file s; wsi := wsi s;
     desired_downsampling := desired_downsampling s; size := size s;
     level := level s; downsampling := downsampling s;
     width_available := width_available s;
     height_available := height_available s;
     background_mask := background_mask s;
     background_mask_level := background_mask_level s;
     background_mask_downsampling := background_mask_downsampling s;
     size_at_background_level := size_at_background_level s;
     annotation_mask_file := Some v;
     annotation_mask := annotation_mask s;
     annotation_mask_level := annotation_mask_level s;
     annotation_mask_downsampling := annotation_mask_downsampling s |}.

Definition set_annotation_mask (v : OpenSlide Image) (s : t) : t :=
  {| wsi_file := wsi_file s; wsi := wsi s;
     desired_downsampling := desired_downsampling s; size := size s;
     level := level s; downsampling := downsampling s;
     width_available := width_available s;
     height_available := height_available s;
     background_mask := background_mask s;
     background_mask_level := background_mask_level s;
     background_mask_downsampling := background_mask_downsampling s;
     size_at_background_level := size_at_background_level s;
     annotation_mask_file := annotation_mask_file s;
     annotation_mask := Some v;
     annotation_mask_level := annotation_mask_level s;
     annotation_mask_downsampling := annotation_mask_downsampling s |}.

Definition set_annotation_mask_level (v : nat) (s : t) : t :=
  {| wsi_file := wsi_file s; wsi := wsi s;
     desired_downsampling := desired_downsampling s; size := size s;
     level := level s; downsampling := downsampling s;
     width_available := width_available s;
     height_available := height_available s;
     background_mask := background_mask s;
     background_mask_level := background_mask_level s;
     background_mask_downsampling := background_mask_downsampling s;
     size_at_background_level := size_at_background_level s;
     annotation_mask_file := annotation_mask_file s;
     annotation_mask := annotation_mask s;
     annotation_mask_level := Some v;
     annotation_mask_downsampling := annotation_mask_downsampling s |}.

Definition set_annotation_mask_downsampling (v : Q) (s : t) : t :=
  {| wsi_file := wsi_file s; wsi := wsi s;
     desired_downsampling := desired_downsampling s; size := size s;
     level := level s; downsampling := downsampling s;
     width_available := width_available s;
     height_available := height_available s;
     background_mask := background_mask s;
     background_mask_level := background_mask_level s;
     background_mask_downsampling := background_mask_downsampling s;
     size_at_background_level := size_at_background_level s;
     annotation_mask_file := annotation_mask_file s;
     annotation_mask := annotation_mask s;
     annotation_mask_level := annotation_mask_level s;
     annotation_mask_downsampling := Some v |}.

(** Reading an attribute that may not have been set. *)
Definition getattr {A : Type} (name : string) (v : option A) : Outcome A :=
  match v with
  | Some a => Returned a
  | None => Raised (AttributeError name)
  end.

(** A method that assigns attributes returns the object it leaves behind
    next to its outcome: an assignment made before an exception stays. *)
Definition Method (A : Type) : Type := t -> Outcome A * t.

Definition mret {A : Type} (a : A) : Method A := fun s => (Returned a, s).

Definition mbind {A B : Type} (m : Method A) (k : A -> Method B) : Method B :=
  fun s =>
    match m s with
    | (Returned a, s') => k a s'
    | (Raised e, s') => (Raised e, s')
    | (OutOfDraws, s') => (OutOfDraws, s')
    end.

Definition call {A : Type} (f : t -> Outcome A) : Method A :=
  fun s => (f s, s).

Definition assign (f : t -> t) : Method unit :=
  fun s => (Returned tt, f s).

Definition raise {A : Type} (e : PyError) : Method A :=
  fun s => (Raised e, s).

Declare Scope method_scope.
Delimit Scope method_scope with method.
Notation "x <-- m ;; k" := (mbind m (fun x => k))
  (at level 100, m at next level, right associativity) : method_scope.

(** *** get_level_and_downsampling *)

Definition level_diffs (img : OpenSlide Image) (desired_downsampling : Q)
  : list Q :=
  map (fun i => Qabs (desired_downsampling - nth i (level_downsamples img) 0))
      (seq 0 (length (level_downsamples img))).

Definition get_level_and_downsampling
    (multi_resolution_image : OpenSlide Image)
    (desired_downsampling threshold : Q) : Outcome (nat * Q) :=
  let diffs := level_diffs multi_resolution_image desired_downsampling in
  minimum <- py_min diffs ;;
  if Qltb threshold minimum then
    Raised (LevelNotFound (level_downsamples multi_resolution_image))
  else
    level <- py_index minimum diffs ;;
    f <- getitem (level_downsamples multi_resolution_image) level ;;
    Returned (level, f).

(** *** __init__ *)

Definition init (wsi_file : string) (desired_downsampling : Q) (size : Z)
  : Outcome t :=
  wsi <- open_slide wsi_file ;;
  p <- get_level_and_downsampling wsi desired_downsampling 0.1 ;;
  let level := fst p in
  let downsampling := snd p in
  Returned
    {| wsi_file := wsi_file; wsi := wsi;
       desired_downsampling := desired_downsampling; size := size;
       level := level; downsampling := downsampling;
       width_available :=
         py_int (inject_Z (fst (dimensions wsi)) - downsampling * inject_Z size);
       height_available :=
         py_int (inject_Z (snd (dimensions wsi)) - downsampling * inject_Z size);
       background_mask := None; background_mask_level := None;
       background_mask_downsampling := None;
       size_at_background_level := None;
       annotation_mask_file := None; annotation_mask := None;
       annotation_mask_level := None;
       annotation_mask_downsampling := None |}.

(** *** level_converter *)

(** The result is a [np.uint32] when [round] is set and a float when not. *)
Definition converted (round : bool) : Type := if round then Z else Q.

Definition level_converter (self : t) (x : Q) (lvl_in lvl_out : nat)
    (round : bool) : Outcome (converted round) :=
  match round return Outcome (converted round) with
  | true =>
      d_in <- getitem (level_downsamples (wsi self)) lvl_in ;;
      d_out <- getitem (level_downsamples (wsi self)) lvl_out ;;
      Returned (astype_uint32 (Qfloor (x * d_in / d_out)))
  | false =>
      d_in <- getitem (level_downsamples (wsi self)) lvl_in ;;
      d_out <- getitem (level_downsamples (wsi self)) lvl_out ;;
      Returned (x * d_in / d_out)
  end.

(** *** force_patch_float01 *)

Definition force_patch_float01 (x : ndarray byte) : Outcome (ndarray Q) :=
  m <- ndarray_max x ;;
  if Qltb 1 (inject_Z (Z.of_N m)) then Returned (div255 (astype_float32 x))
  else Returned (astype_float32 x).

(** *** generate_background_mask *)

(** The arrays that a name is bound to where the method reads [mask]: the
    method binds its parameters only, which are numbers, and the module
    binds no array at its top level. *)
Definition arrays_in_scope : list (string * Array) := [].

Definition load_name (name : string) : Outcome Array :=
  match find (fun p => String.eqb (fst p) name) arrays_in_scope with
  | Some p => Returned (snd p)
  | None => Raised (NameError name)
  end.

(** [a.astype(np.float32)]. *)
Definition array_astype_float32 (a : Array) : ndarray Q :=
  match a with
  | BoolArray a => map (map (fun b : bool => if b then 1 else 0)) a
  | UInt8Array a => astype_float32 a
  | FloatArray a => a
  end.

Definition generate_background_mask
    (desired_downsampling threshold : Q) (disk_radius : Z) : Method unit :=
  (p <-- call (fun self =>
         get_level_and_downsampling (wsi self) desired_downsampling threshold) ;;
   _ <-- assign (set_background_mask_level (fst p)) ;;
   _ <-- assign (set_background_mask_downsampling (snd p)) ;;
   mask <-- call (fun _ => load_name "mask") ;;
   _ <-- assign (set_background_mask (array_astype_float32 mask)) ;;
   s <-- call (fun self =>
         lvl <- getattr "background_mask_level" (background_mask_level self) ;;
         level_converter self (inject_Z (size self)) (level self) lvl true) ;;
   assign (set_size_at_background_level s))%method.

(** *** add_annotation_mask *)

Definition add_annotation_mask (annotation_mask_file : string) : Method unit :=
  (_ <-- assign (set_annotation_mask_file annotation_mask_file) ;;
   m <-- call (fun _ => open_slide annotation_mask_file) ;;
   _ <-- assign (set_annotation_mask m) ;;
   p <-- call (fun self =>
         get_level_and_downsampling m (desired_downsampling self) 0.1) ;;
   _ <-- assign (set_annotation_mask_level (fst p)) ;;
   _ <-- assign (set_annotation_mask_downsampling (snd p)) ;;
   let eps := 0.001 in
   call (fun self =>
     d <- getattr "annotation_mask_downsampling"
                  (annotation_mask_downsampling self) ;;
     if Qltb eps (Qabs (d - downsampling self)) then Raised InconsistentGeometry
     else Returned tt))%method.

(** *** get_patch *)

(** [np.random.choice(a)] for an integer [a]: a number of [range(a)], here
    chosen by the next value [r >= 0] of the tape; NumPy raises [ValueError]
    unless [a] is positive. *)
Definition random_choice (a : Z) (r : Z) : Outcome Z :=
  if (a <=? 0)%Z then Raised ValueError else Returned (r mod a)%Z.

(** The fraction that the loop tests for the draw [(w, h)]: the sum of the
    slice of the background mask over the squared footprint. *)
Definition background_coverage (self : t) (w h : Z) : Outcome npfloat :=
  lvl <- getattr "background_mask_level" (background_mask_level self) ;;
  i <- level_converter self (inject_Z h) 0 lvl true ;;
  j <- level_converter self (inject_Z w) 0 lvl true ;;
  mask <- getattr "background_mask" (background_mask self) ;;
  s <- getattr "size_at_background_level" (size_at_background_level self) ;;
  let background_mask_patch :=
    slice2 (Z.to_nat i) (Z.to_nat (astype_uint32 (i + s)))
           (Z.to_nat j) (Z.to_nat (astype_uint32 (j + s))) mask in
  Returned (np_divide (np_sum background_mask_patch)
                      (inject_Z (astype_uint32 (s ^ 2)))).

Fixpoint get_patch (self : t) (tape : list Z)
  : Outcome (Image * Info.t * list Z) :=
  match tape with
  | [] => OutOfDraws
  | rw :: tape1 =>
      w <- random_choice (width_available self) rw ;;
      match tape1 with
      | [] => OutOfDraws
      | rh :: tape2 =>
          h <- random_choice (height_available self) rh ;;
          let patch :=
            convert "RGB" (read_region (wsi self) (w, h) (level self)
                                       (size self, size self)) in
          c <- background_coverage self w h ;;
          if np_gt c 0.9 then
            Returned (patch,
                      {| Info.w := w; Info.h := h; Info.parent := wsi_file self;
                         Info.level := level self; Info.size := size self;
                         Info.class := None |},
                      tape2)
          else get_patch self tape2
      end
  end.

(** *** get_classed_patch *)

(** [patch_class == None or patch_class == c]. *)
Definition class_allowed (patch_class : option Z) (c : Z) : bool :=
  match patch_class with
  | None => true
  | Some k => (k =? c)%Z
  end.

(** The fraction that the loop tests for a patch at [(w, h)]: the sum of the
    annotation patch, forced to floats, over the area of a patch. *)
Definition annotation_fraction (self : t) (w h : Z) : Outcome npfloat :=
  ann <- getattr "annotation_mask" (annotation_mask self) ;;
  lvl <- getattr "annotation_mask_level" (annotation_mask_level self) ;;
  let annotation_mask_patch :=
    convert "L" (read_region ann (w, h) lvl (size self, size self)) in
  annotation_mask_patch_numpy <- force_patch_float01 (asarray annotation_mask_patch) ;;
  let area := (size self ^ 2)%Z in
  Returned (np_divide (np_sum annotation_mask_patch_numpy) (inject_Z area)).

(** One pass through the body of the loop; [fuel] bounds the number of
    passes. *)
Fixpoint get_classed_patch_loop (fuel : nat) (self : t)
    (patch_class : option Z) (tape : list Z)
  : Outcome (Image * Info.t * list Z) :=
  match fuel with
  | O => OutOfDraws
  | S fuel' =>
      r <- get_patch self tape ;;
      let patch := fst (fst r) in
      let info := snd (fst r) in
      let tape' := snd r in
      f <- annotation_fraction self (Info.w info) (Info.h info) ;;
      let st :=
        if np_lt f 0.1 && class_allowed patch_class 0
        then (Info.set_class 0 info, true) else (info, false) in
      let st :=
        if np_gt f 0.9 && class_allowed patch_class 1
        then (Info.set_class 1 (fst st), true) else st in
      if snd st then Returned (patch, fst st, tape')
      else get_classed_patch_loop fuel' self patch_class tape'
  end.

(** Every pass that goes on has read two values of the tape at least, so
    the loop has left it, one way or another, before this fuel is spent. *)
Definition get_classed_patch (self : t) (patch_class : option Z)
    (tape : list Z) : Outcome (Image * Info.t * list Z) :=
  get_classed_patch_loop (S (length tape)) self patch_class tape.

(** *** pickle_load_background_mask *)

(** [content] is what [pickle.load] reads from the file: the mask, its
    level, its downsampling and the size of a patch at that level. *)
Definition pickle_load_background_mask
    (content : ndarray Q * nat * Q * Z) : Method unit :=
  (_ <-- assign (set_background_mask (fst (fst (fst content)))) ;;
   _ <-- assign (set_background_mask_level (snd (fst (fst content)))) ;;
   _ <-- assign (set_background_mask_downsampling (snd (fst content))) ;;
   assign (set_size_at_background_level (snd content)))%method.

(** *** pickle_background_mask *)

(** The list that [pickle.dump] writes to the file of the mask. *)
Definition pickle_background_mask (self : t)
  : Outcome (ndarray Q * nat * Q * Z) :=
  mask <- getattr "background_mask" (background_mask self) ;;
  lvl <- getattr "background_mask_level" (background_mask_level self) ;;
  d <- getattr "background_mask_downsampling"
               (background_mask_downsampling self) ;;
  s <- getattr "size_at_background_level" (size_at_background_level self) ;;
  Returned (mask, lvl, d, s).

(** *** get_basic_patchframe *)

Definition patchframe_columns : list string :=
  ["w"; "h"; "class"; "parent"; "level"; "size"]%string.

(** The [for] loop, for the patches still to get. *)
Fixpoint patchframe_loop (n : nat) (self : t) (frame : DataFrame)
    (tape : list Z) : Outcome (DataFrame * list Z) :=
  match n with
  | O => Returned (frame, tape)
  | S n' =>
      r <- get_classed_patch self None tape ;;
      let info := snd (fst r) in
      patchframe_loop n' self (frame_append frame info) (snd r)
  end.

(** With [save=0], the default; saving only writes the returned frame to a
    file. *)
Definition get_basic_patchframe (self : t) (number_patches : nat)
    (tape : list Z) : Outcome (DataFrame * list Z) :=
  let frame := {| columns := patchframe_columns; rows := [] |} in
  patchframe_loop number_patches self frame tape.

End Methods.

End Slide_Sampler.

(** * The vocabulary of the properties *)

(** [f] is the factor of level [i] of [F], and no factor of [F] is nearer to
    [d]. *)
Definition nearest_level (F : list Q) (d : Q) (i : nat) (f : Q) : Prop :=
  nth_error F i = Some f /\
  forall j fj, nth_error F j = Some fj -> Qabs (d - f) <= Qabs (d - fj).

(** [m] is a greatest element of the array [x]. *)
Definition array_max (x : ndarray byte) (m : byte) : Prop :=
  In m (concat x) /\
  forall b, In b (concat x) -> (Byte.to_N b <= Byte.to_N m)%N.

(** Every value of the array is in [[0, 1]]. *)
Definition unit_range (y : ndarray Q) : Prop :=
  Forall (Forall (fun v => 0 <= v <= 1)) y.

Section Vocabulary.

Context {Image : Type} {PIL : Imaging Image}.


(** [draws self n tape infos tape']: [n] calls of [get_classed_patch] without
    a class, one after the other from [tape], return the records [infos], in
    this order, and leave [tape']. *)
Inductive draws (self : Slide_Sampler.t (Image := Image))
  : nat -> list Z -> list Info.t -> list Z -> Prop :=
| draws_O (tape : list Z) : draws self 0 tape [] tape
| draws_S (n : nat) (tape : list Z) (patch : Image) (info : Info.t)
    (tape1 : list Z) (infos : list Info.t) (tape2 : list Z) :
    Slide_Sampler.get_classed_patch self None tape =
    Returned (patch, info, tape1) ->
    draws self n tape1 infos tape2 ->
    draws self (S n) tape (info :: infos) tape2.

(** The attributes that [__init__] sets. *)
Definition slide_attributes (self : Slide_Sampler.t (Image := Image))
  : string * OpenSlide Image * Q * Z * nat * Q * Z * Z :=
  (Slide_Sampler.wsi_file self, Slide_Sampler.wsi self,
   Slide_Sampler.desired_downsampling self, Slide_Sampler.size self,
   Slide_Sampler.level self, Slide_Sampler.downsampling self,
   Slide_Sampler.width_available self, Slide_Sampler.height_available self).

(** The attributes of the background mask. *)
Definition background_attributes (self : Slide_Sampler.t (Image := Image))
  : option (ndarray Q) * option nat * option Q * option Z :=
  (Slide_Sampler.background_mask self,
   Slide_Sampler.background_mask_level self,
   Slide_Sampler.background_mask_downsampling self,
   Slide_Sampler.size_at_background_level self).


(** The record that [get_patch] makes for the origin [(w, h)]. *)
Definition patch_info (self : Slide_Sampler.t (Image := Image)) (w h : Z)
  : Info.t :=
  {| Info.w := w; Info.h := h; Info.parent := Slide_Sampler.wsi_file self;
     Info.level := Slide_Sampler.level self;
     Info.size := Slide_Sampler.size self; Info.class := None |}.

(** The pixels that [get_patch] reads for the origin [(w, h)]. *)
Definition patch_pixels (self : Slide_Sampler.t (Image := Image)) (w h : Z)
  : Image :=
  convert "RGB"
    (read_region (Slide_Sampler.wsi self) (w, h) (Slide_Sampler.level self)
       (Slide_Sampler.size self, Slide_Sampler.size self)).

(** The origin that the values [rw] and [rh] of the tape choose, and whether
    the background test accepts it. *)
Definition draw_accepted (self : Slide_Sampler.t (Image := Image))
    (rw rh : Z) : Outcome bool :=
  w <- Slide_Sampler.random_choice (Slide_Sampler.width_available self) rw ;;
  h <- Slide_Sampler.random_choice (Slide_Sampler.height_available self) rh ;;
  c <- Slide_Sampler.background_coverage self w h ;;
  Returned (np_gt c 0.9).

(** A tape of draws that the background test refuses one after the other. *)
Inductive refused (self : Slide_Sampler.t (Image := Image))
  : list Z -> Prop :=
| refused_nil : refused self []
| refused_draw (rw rh : Z) (tape : list Z) :
    draw_accepted self rw rh = Returned false ->
    refused self tape -> refused self (rw :: rh :: tape).

(** The rendering of the slide that the mask pipeline reads. *)
Definition rendering (wsi : OpenSlide Image) (level : nat) (size : Z * Z)
  : ndarray (byte * byte * byte) :=
  asarray_rgb (convert "RGB" (read_region wsi (0, 0)%Z level size)).

(** The mask pipeline in the words of its description: the saturation
    channel of the rendering in HSV, Otsu's threshold on it, the pixels above
    the threshold, then a closing and an opening by a disk of radius 10. *)
Definition morphological_result {SK : Skimage}
    (rgb : ndarray (byte * byte * byte)) : Outcome Array :=
  let saturation := map (map (fun p => snd (fst p))) (convert_colorspace_RGB_HSV rgb) in
  t <- threshold_otsu saturation ;;
  let binarized := BoolArray (map (map (fun v => Qltb t v)) saturation) in
  closed <- closing binarized (disk 10) ;;
  opening closed (disk 10).

(** The library returns from the threshold, and from a closing and an
    opening of a boolean array with a boolean array. *)
Definition keeps_boolean (SK : Skimage) : Prop :=
  (forall a, exists t, threshold_otsu a = Returned t) /\
  (forall a fp, exists b, closing (BoolArray a) fp = Returned (BoolArray b)) /\
  (forall a fp, exists b, opening (BoolArray a) fp = Returned (BoolArray b)).

End Vocabulary.

(** * Example data *)

(** A small imaging back end on which the methods compute: an image is its
    array of grey values, a region read from a slide is uniformly grey, and
    four files can be opened. *)
Module Example.

Definition image : Type := ndarray byte.

Definition uniform (v : byte) (size : Z * Z) : image :=
  repeat (repeat v (Z.to_nat (fst size))) (Z.to_nat (snd size)).

Definition slide_of (F : list Q) (v : byte) : OpenSlide image :=
  {| dimensions := (40, 40)%Z;
     level_downsamples := F;
     level_dimensions := [(40, 40)%Z; (10, 10)%Z];
     read_region := fun _ _ size => uniform v size |}.

(** A slide with the levels 1 and 4. *)
Definition slide : OpenSlide image := slide_of [1; 4] x80.

(** A slide with the levels of the example of the specification. *)
Definition deep_slide : OpenSlide image := slide_of [1; 4; 16; 32] x80.

(** An annotation mask without annotation, on the levels of [slide]. *)
Definition empty_annotation : OpenSlide image := slide_of [1; 4] x00.

(** An annotation mask that is annotated everywhere, on other levels. *)
Definition shifted_annotation : OpenSlide image := slide_of [1; 4.05] xff.

Definition files (file : string) : Outcome (OpenSlide image) :=
  if String.eqb file "slide.svs" then Returned slide
  else if String.eqb file "deep.svs" then Returned deep_slide
  else if String.eqb file "empty.tif" then Returned empty_annotation
  else if String.eqb file "shifted.tif" then Returned shifted_annotation
  else Raised OpenSlideError.

#[global] Instance imaging : Imaging image := {|
  convert := fun _ im => im;
  asarray := fun im => im;
  asarray_rgb := map (map (fun v => (v, v, v)));
  open_slide := files
|}.

(** A colour conversion that takes the second channel for the saturation. *)
Definition hsv (rgb : ndarray (byte * byte * byte)) : ndarray (Q * Q * Q) :=
  map (map (fun p : byte * byte * byte =>
              (0, byte_val (snd (fst p)) / 255, byte_val (snd p) / 255))) rgb.

(** A scikit-image whose threshold is one half and whose closing and opening
    return the array they are given. *)
Definition skimage : Skimage := {|
  Footprint := Z;
  convert_colorspace_RGB_HSV := hsv;
  threshold_otsu := fun _ => Returned 0.5;
  disk := fun r => r;
  closing := fun a _ => Returned a;
  opening := fun a _ => Returned a
|}.

(** A scikit-image whose closing returns an array of bytes. *)
Definition skimage_uint8 : Skimage := {|
  Footprint := Z;
  convert_colorspace_RGB_HSV := hsv;
  threshold_otsu := fun _ => Returned 0.5;
  disk := fun r => r;
  closing := fun a _ =>
    match a with
    | BoolArray b =>
        Returned (UInt8Array (map (map (fun v : bool => if v then x01 else x00)) b))
    | _ => Returned a
    end;
  opening := fun a _ => Returned a
|}.

(** A scikit-image whose threshold refuses an image of a single value. *)
Definition skimage_strict : Skimage := {|
  Footprint := Z;
  convert_colorspace_RGB_HSV := hsv;
  threshold_otsu := fun a =>
    match concat a with
    | v :: r => if forallb (Qeq_bool v) r then Raised ValueError
                else Returned 0.5
    | [] => Raised ValueError
    end;
  disk := fun r => r;
  closing := fun a _ => Returned a;
  opening := fun a _ => Returned a
|}.

(** The sampler of [Slide_Sampler("slide.svs", 4, 2)]. *)
Definition sampler : Slide_Sampler.t :=
  {| Slide_Sampler.wsi_file := "slide.svs";
     Slide_Sampler.wsi := slide;
     Slide_Sampler.desired_downsampling := 4;
     Slide_Sampler.size := 2;
     Slide_Sampler.level := 1;
     Slide_Sampler.downsampling := 4;
     Slide_Sampler.width_available := 32;
     Slide_Sampler.height_available := 32;
     Slide_Sampler.background_mask := None;
     Slide_Sampler.background_mask_level := None;
     Slide_Sampler.background_mask_downsampling := None;
     Slide_Sampler.size_at_background_level := None;
     Slide_Sampler.annotation_mask_file := None;
     Slide_Sampler.annotation_mask := None;
     Slide_Sampler.annotation_mask_level := None;
     Slide_Sampler.annotation_mask_downsampling := None |}.

(** A background mask of the slide at level 1 that is tissue everywhere, as
    it is read back from a pickle. *)
Definition all_tissue : ndarray Q * nat * Q * Z :=
  (repeat (repeat 1 10) 10, 1%nat, 4, 2%Z).

(** [sampler] after [pickle_load_background_mask]. *)
Definition masked_sampler : Slide_Sampler.t :=
  snd (Slide_Sampler.pickle_load_background_mask all_tissue sampler).

(** [masked_sampler] after [add_annotation_mask("empty.tif")]. *)
Definition annotated_sampler : Slide_Sampler.t :=
  snd (Slide_Sampler.add_annotation_mask "empty.tif" masked_sampler).

(** The sampler that an outcome of [__init__] has returned. *)
Definition sampler_of (o : Outcome Slide_Sampler.t) : Slide_Sampler.t :=
  match o with
  | Returned s => s
  | _ => sampler
  end.

(** The sampler of [Slide_Sampler("slide.svs", 4, 20)]: a patch is larger
    than the slide. *)
Definition large_patch_sampler : Slide_Sampler.t :=
  sampler_of (Slide_Sampler.init "slide.svs" 4 20).

(** [sampler] with a mask whose left half is background. *)
Definition half_sampler : Slide_Sampler.t :=
  snd (Slide_Sampler.pickle_load_background_mask
         (repeat (repeat 0 5 ++ repeat 1 5) 10, 1%nat, 4, 2%Z) sampler).

(** [sampler] with a mask without tissue. *)
Definition blank_sampler : Slide_Sampler.t :=
  snd (Slide_Sampler.pickle_load_background_mask
         (repeat (repeat 0 10) 10, 1%nat, 4, 2%Z) sampler).


End Example.

(** * Properties *)

Unset Implicit Arguments.

(** ** Comparisons, sequences and outcomes *)

Lemma Qltb_lt (x y : Q) : Qltb x y = true <-> x < y.
Proof.
  unfold Qltb. rewrite negb_true_iff. split; intros H.
  - apply Qnot_le_lt. intros Hle. apply Qle_bool_iff in Hle. congruence.
  - destruct (Qle_bool y x) eqn:E; [|reflexivity].
    apply Qle_bool_iff in E. exfalso. exact (Qlt_not_le _ _ H E).
Qed.

Lemma Qltb_ge (x y : Q) : Qltb x y = false <-> y <= x.
Proof.
  unfold Qltb. rewrite negb_false_iff. apply Qle_bool_iff.
Qed.

Lemma bind_returned {A B : Type} (m : Outcome A) (k : A -> Outcome B) (b : B) :
  bind m k = Returned b -> exists a, m = Returned a /\ k a = Returned b.
Proof.
  destruct m as [a| |]; simpl; intros H; try discriminate. now exists a.
Qed.

Lemma map_nth_seq {A : Type} (d : A) (l : list A) :
  map (fun i => nth i l d) (seq 0 (length l)) = l.
Proof.
  induction l as [|a l IH]; simpl; [reflexivity|].
  f_equal. rewrite <- seq_shift, map_map. exact IH.
Qed.

Lemma py_min_from_spec (l : list Q) : forall m,
  In (py_min_from m l) (m :: l) /\
  forall x, In x (m :: l) -> py_min_from m l <= x.
Proof.
  induction l as [|a l IH]; intros m; simpl.
  - split; [now left|]. intros x [<-|[]]. apply Qle_refl.
  - destruct (IH (if Qltb a m then a else m)) as [Hin Hle]. split.
    + destruct Hin as [Hin|Hin]; [|now right; right].
      rewrite <- Hin. destruct (Qltb a m); [right|]; now left.
    + intros x Hx.
      assert (Hc : (if Qltb a m then a else m) <= m /\
                   (if Qltb a m then a else m) <= a).
      { destruct (Qltb a m) eqn:E.
        - apply Qltb_lt in E. split; [now apply Qlt_le_weak|apply Qle_refl].
        - apply Qltb_ge in E. split; [apply Qle_refl|exact E]. }
      destruct Hc as [Hm Ha].
      destruct Hx as [<-|[<-|Hx]].
      * eapply Qle_trans; [|exact Hm]. apply Hle. now left.
      * eapply Qle_trans; [|exact Ha]. apply Hle. now left.
      * apply Hle. now right.
Qed.

Lemma py_index_spec (v : Q) (l : list Q) :
  In v l ->
  exists n x, py_index v l = Returned n /\ nth_error l n = Some x /\ x == v.
Proof.
  induction l as [|a l IH]; intros Hin; [destruct Hin|]. simpl.
  destruct (Qeq_bool a v) eqn:E.
  - exists 0%nat, a. repeat split. now apply Qeq_bool_iff.
  - destruct Hin as [->|Hin].
    + rewrite Qeq_bool_refl in E. discriminate.
    + destruct (IH Hin) as (n & x & Hn & Hx & Hxv).
      exists (S n), x. rewrite Hn. now repeat split.
Qed.

(** ** The level resolver *)

Section LevelResolver.

Context {Image : Type}.

Lemma level_diffs_map (img : OpenSlide Image) (d : Q) :
  Slide_Sampler.level_diffs img d =
  map (fun f => Qabs (d - f)) (level_downsamples img).
Proof.
  unfold Slide_Sampler.level_diffs.
  rewrite <- (map_map (fun i => nth i (level_downsamples img) 0)
                      (fun f => Qabs (d - f))).
  now rewrite map_nth_seq.
Qed.

(** The minimum of the differences is the difference of a nearest level. *)
Lemma py_min_nearest (F : list Q) (d : Q) (m : Q) :
  py_min (map (fun f => Qabs (d - f)) F) = Returned m ->
  In m (map (fun f => Qabs (d - f)) F) /\
  forall j fj, nth_error F j = Some fj -> m <= Qabs (d - fj).
Proof.
  destruct F as [|a F]; simpl; [discriminate|].
  intros H. injection H as <-.
  destruct (py_min_from_spec (map (fun f => Qabs (d - f)) F) (Qabs (d - a)))
    as [Hin Hle].
  split; [exact Hin|]. intros j fj Hj. apply Hle.
  change (In (Qabs (d - fj)) (map (fun f => Qabs (d - f)) (a :: F))).
  apply (in_map (fun f => Qabs (d - f))). eapply nth_error_In; eauto.
Qed.

(** What the method returns, and when it raises. *)
Lemma get_level_and_downsampling_cases (img : OpenSlide Image) (d t : Q) :
  level_downsamples img <> [] ->
  exists m i f,
    nearest_level (level_downsamples img) d i f /\ Qabs (d - f) == m /\
    Slide_Sampler.get_level_and_downsampling img d t =
    if Qltb t m then Raised (LevelNotFound (level_downsamples img))
    else Returned (i, f).
Proof.
  intros Hne. unfold Slide_Sampler.get_level_and_downsampling.
  rewrite level_diffs_map. set (F := level_downsamples img) in *.
  destruct (py_min (map (fun f => Qabs (d - f)) F)) as [m| |] eqn:Hmin.
  2,3: destruct F; [congruence|discriminate].
  destruct (py_min_nearest F d m Hmin) as [Hin Hle].
  destruct (py_index_spec m _ Hin) as (n & x & Hn & Hx & Hxm).
  rewrite nth_error_map in Hx.
  destruct (nth_error F n) as [f|] eqn:Hf; [|discriminate].
  injection Hx as <-.
  exists m, n, f. split; [|split; [exact Hxm|]].
  - split; [exact Hf|]. intros j fj Hj. rewrite Hxm. now apply (Hle j).
  - cbv zeta. cbn [bind]. destruct (Qltb t m); [reflexivity|].
    rewrite Hn. cbn [bind]. unfold getitem. now rewrite Hf.
Qed.


End LevelResolver.

(** ** The coordinate converter *)

Section Converter.

Context {Image : Type}.








End Converter.

(** ** The normalisation of annotation patches *)

Section Normalisation.

Context {Image : Type} {PIL : Imaging Image}.

Lemma fold_max_spec (l : list N) : forall a,
  In (fold_left N.max l a) (a :: l) /\
  forall n, In n (a :: l) -> (n <= fold_left N.max l a)%N.
Proof.
  induction l as [|b l IH]; intros a; simpl.
  - split; [now left|]. intros n [<-|[]]. apply N.le_refl.
  - destruct (IH (N.max a b)) as [Hin Hle]. split.
    + destruct Hin as [Hin|Hin]; [|now right; right].
      rewrite <- Hin. destruct (N.max_spec a b) as [[_ ->]|[_ ->]];
        [right|]; now left.
    + intros n [<-|[<-|Hn]].
      * etransitivity; [apply (N.le_max_l a b)|]. apply Hle. now left.
      * etransitivity; [apply (N.le_max_r a b)|]. apply Hle. now left.
      * apply Hle. now right.
Qed.

Lemma ndarray_max_spec (x : ndarray byte) :
  concat x <> [] ->
  exists m, ndarray_max x = Returned (Byte.to_N m) /\ array_max x m.
Proof.
  unfold ndarray_max, array_max. destruct (concat x) as [|b r]; [congruence|].
  intros _.
  destruct (fold_max_spec (map Byte.to_N r) (Byte.to_N b)) as [Hin Hle].
  change (Byte.to_N b :: map Byte.to_N r) with (map Byte.to_N (b :: r)) in *.
  apply in_map_iff in Hin. destruct Hin as (m & Hm & Hin).
  exists m. rewrite <- Hm. split; [reflexivity|]. split; [exact Hin|].
  intros c Hc. rewrite Hm. apply Hle. now apply in_map.
Qed.

Lemma byte_val_range (b : byte) : 0 <= byte_val b <= inject_Z 255.
Proof.
  unfold byte_val. pose proof (Byte.to_N_bounded b) as H.
  split.
  - change 0 with (inject_Z 0). rewrite <- Zle_Qle. lia.
  - rewrite <- Zle_Qle. lia.
Qed.

Lemma byte_val_le (b c : byte) :
  (Byte.to_N b <= Byte.to_N c)%N -> byte_val b <= byte_val c.
Proof. intros H. unfold byte_val. rewrite <- Zle_Qle. lia. Qed.

Lemma div255_astype (x : ndarray byte) :
  div255 (astype_float32 x) = map (map (fun b => byte_val b / 255)) x.
Proof.
  unfold div255, astype_float32. rewrite map_map. apply map_ext.
  intros row. apply map_map.
Qed.

Lemma unit_range_map (g : byte -> Q) (x : ndarray byte) :
  (forall b, In b (concat x) -> 0 <= g b <= 1) ->
  unit_range (map (map g) x).
Proof.
  unfold unit_range. induction x as [|row x IH]; simpl; intros H.
  - constructor.
  - constructor.
    + apply Forall_map, Forall_forall. intros b Hb. apply H, in_or_app.
      now left.
    + apply IH. intros b Hb. apply H, in_or_app. now right.
Qed.

(** C10: on an array [x] of bytes with an element, [force_patch_float01]
    returns the floats of [x] divided by 255 when the greatest value of
    [x] exceeds 1, and the floats of [x] as they are when it does not;
    either way all values of the result are in [[0, 1]]. *)
Theorem force_patch_float01_unit_range (x : ndarray byte) :
  concat x <> [] ->
  exists y,
    Slide_Sampler.force_patch_float01 x = Returned y /\
    (forall m, array_max x m ->
       (1 < byte_val m -> y = div255 (astype_float32 x)) /\
       (byte_val m <= 1 -> y = astype_float32 x)) /\
    unit_range y.
Proof.
  intros Hne. destruct (ndarray_max_spec x Hne) as (m & Hmax & [Hin Hle]).
  unfold Slide_Sampler.force_patch_float01. rewrite Hmax. cbn [bind].
  fold (byte_val m).
  assert (Hsame : forall m', array_max x m' -> byte_val m' == byte_val m).
  { intros m' [Hin' Hle']. apply Qle_antisym; apply byte_val_le; auto. }
  destruct (Qltb 1 (byte_val m)) eqn:E.
  - apply Qltb_lt in E. eexists. split; [reflexivity|]. split.
    + intros m' Hm'. rewrite (Hsame m' Hm'). split; [reflexivity|].
      intros Hc. exfalso. exact (Qlt_not_le _ _ E Hc).
    + rewrite div255_astype. apply unit_range_map. intros b _.
      destruct (byte_val_range b) as [H0 H1]. split.
      * apply Qle_shift_div_l; [reflexivity|]. now rewrite Qmult_0_l.
      * apply Qle_shift_div_r; [reflexivity|]. now rewrite Qmult_1_l.
  - apply Qltb_ge in E. eexists. split; [reflexivity|]. split.
    + intros m' Hm'. rewrite (Hsame m' Hm'). split; [|reflexivity].
      intros Hc. exfalso. exact (Qlt_not_le _ _ Hc E).
    + apply unit_range_map. intros b Hb.
      destruct (byte_val_range b) as [H0 _]. split; [exact H0|].
      eapply Qle_trans; [apply byte_val_le, Hle, Hb|exact E].
Qed.

End Normalisation.

(** ** The rejection sampler *)

Section RejectionSampler.

Context {Image : Type} {PIL : Imaging Image}.

Abbreviation sampler := (Slide_Sampler.t (Image := Image)).

Lemma background_coverage_unfold (self : sampler) (w h : Z) (c : npfloat) :
  Slide_Sampler.background_coverage self w h = Returned c ->
  exists lvl mask s i j,
    Slide_Sampler.background_mask_level self = Some lvl /\
    Slide_Sampler.background_mask self = Some mask /\
    Slide_Sampler.size_at_background_level self = Some s /\
    Slide_Sampler.level_converter self (inject_Z h) 0 lvl true = Returned i /\
    Slide_Sampler.level_converter self (inject_Z w) 0 lvl true = Returned j /\
    c = np_divide
          (np_sum (slice2 (Z.to_nat i) (Z.to_nat (astype_uint32 (i + s)))
                          (Z.to_nat j) (Z.to_nat (astype_uint32 (j + s)))
                          mask))
          (inject_Z (astype_uint32 (s ^ 2))).
Proof.
  unfold Slide_Sampler.background_coverage, Slide_Sampler.getattr.
  intros H.
  destruct (Slide_Sampler.background_mask_level self) as [lvl|];
    [|discriminate].
  cbn [bind] in H.
  apply bind_returned in H. destruct H as (i & Hi & H).
  apply bind_returned in H. destruct H as (j & Hj & H).
  destruct (Slide_Sampler.background_mask self) as [mask|]; [|discriminate].
  destruct (Slide_Sampler.size_at_background_level self) as [s|];
    [|discriminate].
  cbn [bind] in H. injection H as <-.
  exists lvl, mask, s, i, j. repeat split; assumption.
Qed.

(** The loop of [get_patch] ends at the first draw that is accepted: it
    returns the position of that draw and what is left of the tape. *)
Lemma get_patch_accepted (self : sampler) (tape : list Z) :
  forall patch info tape',
    Slide_Sampler.get_patch self tape = Returned (patch, info, tape') ->
    (exists c,
       Slide_Sampler.background_coverage self (Info.w info) (Info.h info) =
       Returned c /\ np_gt c 0.9 = true) /\
    Info.class info = None /\
    (2 + length tape' <= length tape)%nat.
Proof.
  remember (length tape) as n eqn:Hn. revert tape Hn.
  induction n as [n IH] using lt_wf_ind.
  intros tape Hn patch info tape' H.
  destruct tape as [|rw [|rh tape2]]; simpl in H, Hn; try discriminate.
  - destruct (Slide_Sampler.random_choice _ rw); discriminate.
  - apply bind_returned in H. destruct H as (w & _ & H).
    apply bind_returned in H. destruct H as (h & _ & H).
    apply bind_returned in H. destruct H as (c & Hc & H).
    destruct (np_gt c 0.9) eqn:E.
    + injection H as <- <- <-. simpl. split; [|split; [reflexivity|lia]].
      exists c. now split.
    + destruct (IH (length tape2) ltac:(lia) tape2 eq_refl _ _ _ H)
        as (Hcov & Hcl & Hlen).
      split; [exact Hcov|]. split; [exact Hcl|]. lia.
Qed.


End RejectionSampler.

(** ** The classed rejection sampler and the accumulator *)

Section ClassedSampler.

Context {Image : Type} {PIL : Imaging Image}.

Abbreviation sampler := (Slide_Sampler.t (Image := Image)).



Lemma class_allowed_requested (c k : Z) :
  Slide_Sampler.class_allowed (Some c) k = true -> c = k.
Proof. simpl. apply Z.eqb_eq. Qed.


(** The fuel of [get_classed_patch] is never what ends its loop. *)
Lemma get_classed_patch_loop_fuel (self : sampler) (pc : option Z) :
  forall fuel1 fuel2 tape,
    (length tape < fuel1)%nat -> (length tape < fuel2)%nat ->
    Slide_Sampler.get_classed_patch_loop fuel1 self pc tape =
    Slide_Sampler.get_classed_patch_loop fuel2 self pc tape.
Proof.
  induction fuel1 as [|fuel1 IH]; intros fuel2 tape H1 H2; [lia|].
  destruct fuel2 as [|fuel2]; [lia|]. simpl.
  destruct (Slide_Sampler.get_patch self tape) as [[[p i0] t0]| |] eqn:Hp;
    try reflexivity.
  cbn [bind fst snd].
  destruct (Slide_Sampler.annotation_fraction self (Info.w i0) (Info.h i0))
    as [f| |]; try reflexivity.
  cbn [bind].
  destruct (get_patch_accepted self tape _ _ _ Hp) as (_ & _ & Hlen).
  match goal with |- (if ?b then _ else _) = _ => destruct b end;
    [reflexivity|].
  apply IH; lia.
Qed.

Lemma frame_append_columns (frame : DataFrame) (info : Info.t) :
  columns frame = Slide_Sampler.patchframe_columns ->
  columns (frame_append frame info) = Slide_Sampler.patchframe_columns.
Proof.
  intros H. unfold frame_append, Info.keys. simpl. rewrite H.
  destruct (Info.class info); reflexivity.
Qed.

Lemma patchframe_loop_draws (self : sampler) :
  forall n frame tape frame' tape',
    columns frame = Slide_Sampler.patchframe_columns ->
    (Slide_Sampler.patchframe_loop n self frame tape = Returned (frame', tape')
     <->
     exists infos,
       draws self n tape infos tape' /\
       frame' = {| columns := Slide_Sampler.patchframe_columns;
                   rows := rows frame ++ infos |}).
Proof.
  induction n as [|n IH]; intros frame tape frame' tape' Hcol; simpl.
  - split.
    + intros H. injection H as <- <-. exists []. split; [constructor|].
      rewrite app_nil_r, <- Hcol. now destruct frame.
    + intros (infos & Hd & ->). inversion Hd; subst.
      rewrite app_nil_r, <- Hcol. now destruct frame.
  - split.
    + intros H. apply bind_returned in H.
      destruct H as ([[p info] tape1] & Hg & H). cbn [fst snd] in H.
      apply (IH _ _ _ _ (frame_append_columns frame info Hcol)) in H.
      destruct H as (infos & Hd & ->).
      exists (info :: infos). split; [econstructor; eauto|].
      simpl. now rewrite <- app_assoc.
    + intros (infos & Hd & ->). inversion Hd; subst.
      match goal with Hg : Slide_Sampler.get_classed_patch _ _ _ = _ |- _ =>
        rewrite Hg end.
      cbn [bind fst snd].
      apply (IH _ _ _ _ (frame_append_columns frame info Hcol)).
      eexists. split; [eassumption|]. simpl. now rewrite <- app_assoc.
Qed.

Lemma draws_length (self : sampler) (n : nat) (tape : list Z)
    (infos : list Info.t) (tape' : list Z) :
  draws self n tape infos tape' -> length infos = n.
Proof. induction 1; simpl; congruence. Qed.

Lemma patchframe_loop_raises (self : sampler) (e : PyError) :
  forall k n frame tape infos tape1,
    draws self k tape infos tape1 -> (k < n)%nat ->
    Slide_Sampler.get_classed_patch self None tape1 = Raised e ->
    Slide_Sampler.patchframe_loop n self frame tape = Raised e.
Proof.
  induction k as [|k IH]; intros n frame tape infos tape1 Hd Hk He;
    (destruct n as [|n]; [lia|]); inversion Hd; subst; simpl.
  - now rewrite He.
  - match goal with Hg : Slide_Sampler.get_classed_patch _ _ _ = _ |- _ =>
      rewrite Hg end.
    cbn [bind fst snd]. eapply IH; eauto. lia.
Qed.

(** C9: [get_basic_patchframe] returns a frame exactly when
    [number_patches] calls of [get_classed_patch] without a class, one after
    the other, all return; the frame then has the columns w, h, class,
    parent, level and size and one row for each call, in the order of the
    calls; and when one of these calls raises an exception after the ones
    before it have returned, [get_basic_patchframe] raises this exception
    and returns no frame. *)
Theorem get_basic_patchframe_rows (self : sampler) (number_patches : nat)
    (tape : list Z) :
  (forall frame tape',
     Slide_Sampler.get_basic_patchframe self number_patches tape =
     Returned (frame, tape') <->
     columns frame = ["w"; "h"; "class"; "parent"; "level"; "size"]%string /\
     draws self number_patches tape (rows frame) tape') /\
  (forall frame tape',
     Slide_Sampler.get_basic_patchframe self number_patches tape =
     Returned (frame, tape') ->
     length (rows frame) = number_patches) /\
  (forall k infos tape1 e,
     (k < number_patches)%nat -> draws self k tape infos tape1 ->
     Slide_Sampler.get_classed_patch self None tape1 = Raised e ->
     Slide_Sampler.get_basic_patchframe self number_patches tape = Raised e).
Proof.
  unfold Slide_Sampler.get_basic_patchframe.
  assert (Hiff : forall frame tape',
    Slide_Sampler.patchframe_loop number_patches self
      {| columns := Slide_Sampler.patchframe_columns; rows := [] |} tape =
    Returned (frame, tape') <->
    columns frame = Slide_Sampler.patchframe_columns /\
    draws self number_patches tape (rows frame) tape').
  { intros frame tape'. rewrite patchframe_loop_draws by reflexivity. simpl.
    split.
    - intros (infos & Hd & ->). now split.
    - intros [Hc Hd]. exists (rows frame). split; [exact Hd|].
      rewrite <- Hc. now destruct frame. }
  split; [exact Hiff|]. split.
  - intros frame tape' H. apply Hiff in H. destruct H as [_ Hd].
    exact (draws_length _ _ _ _ _ Hd).
  - intros k infos tape1 e Hk Hd He.
    exact (patchframe_loop_raises self e k _ _ _ _ _ Hd Hk He).
Qed.

End ClassedSampler.

(** ** The methods that set up a sampler *)

Section Setup.

Context {Image : Type} {PIL : Imaging Image}.

Abbreviation sampler := (Slide_Sampler.t (Image := Image)).

Lemma get_level_and_downsampling_ends (img : OpenSlide Image) (d t : Q) :
  Slide_Sampler.get_level_and_downsampling img d t <> OutOfDraws.
Proof.
  destruct (level_downsamples img) as [|a F] eqn:HF.
  - unfold Slide_Sampler.get_level_and_downsampling, Slide_Sampler.level_diffs.
    rewrite HF. discriminate.
  - destruct (get_level_and_downsampling_cases img d t) as (m & i & f & _ & _ & ->).
    + rewrite HF. discriminate.
    + destruct (Qltb t m); discriminate.
Qed.

(** C4, amended: the method [generate_background_mask] never returns.  When
    the level resolver raises, the method raises the same exception and
    assigns nothing; when the resolver returns, the method assigns
    [background_mask_level] and [background_mask_downsampling] and then
    raises the [NameError] of [mask].  Either way it assigns neither
    [background_mask] nor [size_at_background_level]. *)
Theorem generate_background_mask_outcome (self : sampler)
    (desired_downsampling threshold : Q) (disk_radius : Z) :
  Slide_Sampler.generate_background_mask desired_downsampling threshold
    disk_radius self =
  match Slide_Sampler.get_level_and_downsampling (Slide_Sampler.wsi self)
          desired_downsampling threshold with
  | Returned p =>
      (Raised (NameError "mask"),
       Slide_Sampler.set_background_mask_downsampling (snd p)
         (Slide_Sampler.set_background_mask_level (fst p) self))
  | Raised e => (Raised e, self)
  | OutOfDraws => (OutOfDraws, self)
  end /\
  returned (fst (Slide_Sampler.generate_background_mask desired_downsampling
                   threshold disk_radius self)) = false /\
  Slide_Sampler.background_mask
    (snd (Slide_Sampler.generate_background_mask desired_downsampling
            threshold disk_radius self)) =
  Slide_Sampler.background_mask self /\
  Slide_Sampler.size_at_background_level
    (snd (Slide_Sampler.generate_background_mask desired_downsampling
            threshold disk_radius self)) =
  Slide_Sampler.size_at_background_level self.
Proof.
  unfold Slide_Sampler.generate_background_mask, Slide_Sampler.mbind,
    Slide_Sampler.call, Slide_Sampler.assign.
  destruct (Slide_Sampler.get_level_and_downsampling (Slide_Sampler.wsi self)
              desired_downsampling threshold) as [p| |];
    simpl; repeat split; reflexivity.
Qed.


(** When the resolved downsamplings agree within 0.001 the call returns. *)
Lemma add_annotation_mask_consistent (self : sampler) (file : string)
    (m : OpenSlide Image) (lvl : nat) (ds : Q) :
  open_slide file = Returned m ->
  Slide_Sampler.get_level_and_downsampling m
    (Slide_Sampler.desired_downsampling self) 0.1 = Returned (lvl, ds) ->
  Qabs (ds - Slide_Sampler.downsampling self) <= 0.001 ->
  fst (Slide_Sampler.add_annotation_mask file self) = Returned tt.
Proof.
  intros Hopen Hres Hdiff.
  unfold Slide_Sampler.add_annotation_mask, Slide_Sampler.mbind,
    Slide_Sampler.call, Slide_Sampler.assign.
  rewrite Hopen. cbn -[Qabs Qminus Qltb]. rewrite Hres.
  cbn -[Qabs Qminus Qltb].
  apply Qltb_ge in Hdiff. now rewrite Hdiff.
Qed.

End Setup.

(** ** The mask pipeline *)

Section MaskPipeline.

Context {Image : Type} {PIL : Imaging Image} {SK : Skimage}.

Lemma dtype_neq_bool_iff (a : Array) :
  dtype_neq_bool (dtype a) = true <-> dtype a <> dt_bool.
Proof. destruct a; simpl; split; congruence. Qed.

Lemma generate_background_mask_unfold (wsi : OpenSlide Image)
    (level : nat) (size : Z * Z) :
  nth_error (level_dimensions wsi) level = Some size ->
  generate_background_mask wsi level =
  (mask <- morphological_result (rendering wsi level size) ;;
   if dtype_neq_bool (dtype mask) then Raised MaskTypeError
   else Returned mask).
Proof.
  intros Hsize. unfold generate_background_mask, getitem. rewrite Hsize.
  cbn [bind]. unfold morphological_result, rendering.
  destruct (threshold_otsu _) as [t| |]; cbn [bind]; try reflexivity.
  destruct (closing _ _) as [c| |]; cbn [bind]; reflexivity.
Qed.

(** C6: for a level of the slide, what [generate_background_mask] returns
    is the morphological result of the rendering and is a boolean array,
    whatever the rendering; when the library gives a morphological result,
    the function raises the exception of a mask that is not boolean if and
    only if the dtype of this result is not boolean; and when the library
    returns from its threshold and keeps closings and openings of boolean
    arrays boolean, the function returns for every rendering. *)
Theorem generate_background_mask_boolean (wsi : OpenSlide Image)
    (level : nat) (size : Z * Z) :
  nth_error (level_dimensions wsi) level = Some size ->
  (forall r, generate_background_mask wsi level = Returned r ->
     morphological_result (rendering wsi level size) = Returned r /\
     exists a, r = BoolArray a) /\
  (forall m, morphological_result (rendering wsi level size) = Returned m ->
     (generate_background_mask wsi level = Raised MaskTypeError <->
      dtype m <> dt_bool)) /\
  (keeps_boolean SK ->
   exists a, generate_background_mask wsi level = Returned (BoolArray a)).
Proof.
  intros Hsize. rewrite (generate_background_mask_unfold wsi level size Hsize).
  split; [|split].
  - intros r H. apply bind_returned in H. destruct H as (m & Hm & H).
    destruct m as [a|a|a]; simpl in H; try discriminate.
    injection H as <-. split; [exact Hm|now exists a].
  - intros m ->. cbn [bind]. rewrite <- dtype_neq_bool_iff.
    destruct (dtype_neq_bool (dtype m)); split; congruence.
  - intros (Hotsu & Hclosing & Hopening).
    unfold morphological_result.
    match goal with |- context [threshold_otsu ?s] =>
      destruct (Hotsu s) as [t ->] end.
    cbn [bind].
    match goal with |- context [closing (BoolArray ?a) ?fp] =>
      destruct (Hclosing a fp) as [c ->] end.
    cbn [bind].
    destruct (Hopening c (disk 10)) as [o ->]. cbn [bind]. simpl.
    now exists o.
Qed.

End MaskPipeline.

(** * The properties on the example data *)

Import Example.

(** The sampler that [__init__] builds for the example slide. *)
Example init_sampler :
  Slide_Sampler.init "slide.svs" 4 2 = Returned Example.sampler.
Proof. reflexivity. Qed.

(** The examples of the specification for the level resolver. *)
Example get_level_and_downsampling_far :
  Slide_Sampler.get_level_and_downsampling deep_slide 30 0.1 =
  Raised (LevelNotFound [1; 4; 16; 32]).
Proof. reflexivity. Qed.

Example get_level_and_downsampling_near :
  Slide_Sampler.get_level_and_downsampling deep_slide 32.05 0.1 =
  Returned (3%nat, 32).
Proof. reflexivity. Qed.





Lemma force_patch_float01_unit_range_witness :
  concat [[x00; xff]] <> [] /\
  exists y,
    Slide_Sampler.force_patch_float01 [[x00; xff]] = Returned y /\
    (forall m, array_max [[x00; xff]] m ->
       (1 < byte_val m -> y = div255 (astype_float32 [[x00; xff]])) /\
       (byte_val m <= 1 -> y = astype_float32 [[x00; xff]])) /\
    unit_range y.
Proof.
  split; [discriminate|].
  apply (force_patch_float01_unit_range [[x00; xff]]). discriminate.
Defined.

(** An array of bytes that are all 0 or 1 is taken as it is. *)
Example force_patch_float01_binary :
  Slide_Sampler.force_patch_float01 [[x00; x01]] = Returned [[0; 1]].
Proof. reflexivity. Qed.


(** A draw on background is passed over: the loop goes on to the next. *)
Example get_patch_redraws :
  Slide_Sampler.get_patch
    (snd (Slide_Sampler.pickle_load_background_mask
            (repeat (repeat 0 5 ++ repeat 1 5) 10, 1%nat, 4, 2%Z) sampler))
    [5; 9; 30; 9]%Z =
  Returned (uniform x80 (2, 2)%Z,
            {| Info.w := 30; Info.h := 9; Info.parent := "slide.svs";
               Info.level := 1; Info.size := 2; Info.class := None |},
            []).
Proof. reflexivity. Qed.


(** With an annotation mask that has no annotation, no draw is of class 1:
    the tape ends before the loop does. *)
Example get_classed_patch_rare :
  Slide_Sampler.get_classed_patch annotated_sampler (Some 1%Z)
    [5; 9; 7; 3; 12; 20]%Z = OutOfDraws.
Proof. reflexivity. Qed.

Lemma get_basic_patchframe_rows_witness :
  Slide_Sampler.get_basic_patchframe annotated_sampler 2 [5; 9; 7; 3]%Z =
  Returned
    ({| columns := ["w"; "h"; "class"; "parent"; "level"; "size"]%string;
        rows :=
          [{| Info.w := 5; Info.h := 9; Info.parent := "slide.svs";
              Info.level := 1; Info.size := 2; Info.class := Some 0%Z |};
           {| Info.w := 7; Info.h := 3; Info.parent := "slide.svs";
              Info.level := 1; Info.size := 2; Info.class := Some 0%Z |}] |},
     []) /\
  draws annotated_sampler 2 [5; 9; 7; 3]%Z
    [{| Info.w := 5; Info.h := 9; Info.parent := "slide.svs";
        Info.level := 1; Info.size := 2; Info.class := Some 0%Z |};
     {| Info.w := 7; Info.h := 3; Info.parent := "slide.svs";
        Info.level := 1; Info.size := 2; Info.class := Some 0%Z |}] [].
Proof.
  split; [reflexivity|].
  apply (proj1 (get_basic_patchframe_rows annotated_sampler 2 [5; 9; 7; 3]%Z)
           {| columns := ["w"; "h"; "class"; "parent"; "level"; "size"]%string;
              rows :=
                [{| Info.w := 5; Info.h := 9; Info.parent := "slide.svs";
                    Info.level := 1; Info.size := 2; Info.class := Some 0%Z |};
                 {| Info.w := 7; Info.h := 3; Info.parent := "slide.svs";
                    Info.level := 1; Info.size := 2;
                    Info.class := Some 0%Z |}] |} []).
  reflexivity.
Defined.

(** The example of the specification: five patches of a slide that is tissue
    everywhere and annotated nowhere are five records of class 0. *)
Example get_basic_patchframe_five :
  match Slide_Sampler.get_basic_patchframe annotated_sampler 5
          [5; 9; 7; 3; 0; 0; 31; 31; 16; 2]%Z with
  | Returned r => map Info.class (rows (fst r))
  | _ => []
  end = repeat (Some 0%Z) 5.
Proof. reflexivity. Qed.

(** A sampler without annotation mask: the exception of the first call is
    the one of [get_basic_patchframe]. *)
Example get_basic_patchframe_raises :
  Slide_Sampler.get_basic_patchframe masked_sampler 3 [5; 9; 7; 3]%Z =
  Raised (AttributeError "annotation_mask").
Proof. reflexivity. Qed.

(** With its default arguments on a slide without a level near 32 the
    method raises the exception of the level resolver, and assigns
    nothing. *)
Lemma generate_background_mask_counterexample :
  Slide_Sampler.generate_background_mask 32 0.1 10 sampler =
  (Raised (LevelNotFound [1; 4]), sampler) /\
  fst (Slide_Sampler.generate_background_mask 32 0.1 10 sampler) <>
  Raised (NameError "mask").
Proof. split; [reflexivity|discriminate]. Qed.

(** On a slide with a level near 4 it raises the [NameError]. *)
Example generate_background_mask_name_error :
  fst (Slide_Sampler.generate_background_mask 4 0.1 10 sampler) =
  Raised (NameError "mask") /\
  Slide_Sampler.background_mask_level
    (snd (Slide_Sampler.generate_background_mask 4 0.1 10 sampler)) =
  Some 1%nat.
Proof. split; reflexivity. Qed.



Lemma generate_background_mask_boolean_witness :
  nth_error (level_dimensions slide) 1 = Some (10, 10)%Z /\
  (forall r, generate_background_mask (SK := skimage) slide 1 = Returned r ->
     morphological_result (SK := skimage) (rendering slide 1 (10, 10)%Z) =
     Returned r /\
     exists a, r = BoolArray a) /\
  (forall m,
     morphological_result (SK := skimage) (rendering slide 1 (10, 10)%Z) =
     Returned m ->
     (generate_background_mask (SK := skimage) slide 1 = Raised MaskTypeError
      <-> dtype m <> dt_bool)) /\
  (keeps_boolean skimage ->
   exists a, generate_background_mask (SK := skimage) slide 1 =
             Returned (BoolArray a)).
Proof.
  split; [reflexivity|].
  apply (generate_background_mask_boolean (SK := skimage) slide 1 (10, 10)%Z).
  reflexivity.
Defined.

(** The example library keeps booleans. *)
Example skimage_keeps_boolean : keeps_boolean skimage.
Proof.
  split; [|split]; intros; eexists; reflexivity.
Qed.

(** A rendering without tissue and one without background under the example
    library; any rendering under a library whose closing returns bytes; and
    a rendering of a single colour under a library whose threshold refuses
    it. *)
Example generate_background_mask_degenerate :
  returned (generate_background_mask (SK := skimage) (slide_of [1; 4] x00) 1) =
  true /\
  returned (generate_background_mask (SK := skimage) (slide_of [1; 4] xff) 1) =
  true /\
  generate_background_mask (SK := skimage_uint8) slide 1 =
  Raised MaskTypeError /\
  generate_background_mask (SK := skimage_strict) (slide_of [1; 4] xff) 1 =
  Raised ValueError.
Proof. repeat split; reflexivity. Qed.

(** * Further properties *)

(** ** The level resolver *)

Section LevelResolverMore.

Context {Image : Type}.

Lemma py_index_first (v : Q) (l : list Q) (n : nat) :
  py_index v l = Returned n ->
  forall j x, (j < n)%nat -> nth_error l j = Some x -> ~ x == v.
Proof.
  revert n. induction l as [|a l IH]; intros n H; [discriminate|].
  simpl in H. destruct (Qeq_bool a v) eqn:E.
  - injection H as <-. intros j x Hj. lia.
  - apply bind_returned in H. destruct H as (k & Hk & H). injection H as <-.
    intros [|j] x Hj Hx; simpl in Hx.
    + injection Hx as <-. now apply Qeq_bool_neq.
    + apply (IH k Hk j x); [lia|exact Hx].
Qed.

Lemma get_level_and_downsampling_returned (img : OpenSlide Image) (d t : Q)
    (i : nat) (f : Q) :
  Slide_Sampler.get_level_and_downsampling img d t = Returned (i, f) ->
  exists m,
    py_min (map (fun f => Qabs (d - f)) (level_downsamples img)) = Returned m /\
    m <= t /\
    py_index m (map (fun f => Qabs (d - f)) (level_downsamples img)) =
    Returned i /\
    nth_error (level_downsamples img) i = Some f.
Proof.
  unfold Slide_Sampler.get_level_and_downsampling.
  rewrite level_diffs_map. cbv zeta. intros H.
  apply bind_returned in H. destruct H as (m & Hm & H).
  destruct (Qltb t m) eqn:E; [discriminate|]. apply Qltb_ge in E.
  apply bind_returned in H. destruct H as (n & Hn & H).
  apply bind_returned in H. destruct H as (g & Hg & H).
  injection H as <- <-.
  exists m. repeat split; try assumption.
  unfold getitem in Hg. destruct (nth_error _ n); [congruence|discriminate].
Qed.

Lemma resolved_within (img : OpenSlide Image) (d t : Q) (i : nat) (f : Q) :
  Slide_Sampler.get_level_and_downsampling img d t = Returned (i, f) ->
  nth_error (level_downsamples img) i = Some f /\ Qabs (d - f) <= t.
Proof.
  intros H.
  destruct (get_level_and_downsampling_returned img d t i f H)
    as (m & Hm & Hle & Hi & Hf).
  split; [exact Hf|].
  destruct (py_min_nearest _ d m Hm) as [Hin _].
  destruct (py_index_spec m _ Hin) as (n & x & Hn & Hx & Hxm).
  rewrite Hi in Hn. injection Hn as <-.
  rewrite nth_error_map, Hf in Hx. injection Hx as <-.
  now rewrite Hxm.
Qed.


(** Of several levels that are nearest to the desired downsampling the one
    of the lowest index is returned: every level before the returned one is
    strictly farther. *)
Theorem get_level_and_downsampling_first (img : OpenSlide Image) (d t : Q)
    (i : nat) (f : Q) :
  Slide_Sampler.get_level_and_downsampling img d t = Returned (i, f) ->
  forall j fj, (j < i)%nat -> nth_error (level_downsamples img) j = Some fj ->
               Qabs (d - f) < Qabs (d - fj).
Proof.
  intros H j fj Hj Hfj.
  destruct (get_level_and_downsampling_returned img d t i f H)
    as (m & Hm & Hle & Hi & Hf).
  destruct (py_min_nearest _ d m Hm) as [Hin Hmin].
  destruct (py_index_spec m _ Hin) as (n & x & Hn & Hx & Hxm).
  rewrite Hi in Hn. injection Hn as <-.
  rewrite nth_error_map, Hf in Hx. injection Hx as <-.
  assert (Hne : ~ Qabs (d - fj) == m).
  { apply (py_index_first m _ i Hi j); [exact Hj|].
    now rewrite nth_error_map, Hfj. }
  rewrite Hxm.
  destruct (Qlt_le_dec m (Qabs (d - fj))) as [Hlt|Hge]; [exact Hlt|].
  exfalso. apply Hne. apply Qle_antisym; [exact Hge|apply (Hmin j fj Hfj)].
Qed.

(** The resolver raises [ValueError] exactly on an image without levels, and
    nothing but it and the exception of a level that is not found. *)
Theorem get_level_and_downsampling_raises (img : OpenSlide Image) (d t : Q)
    (e : PyError) :
  Slide_Sampler.get_level_and_downsampling img d t = Raised e ->
  (e = ValueError /\ level_downsamples img = []) \/
  (e = LevelNotFound (level_downsamples img) /\ level_downsamples img <> []).
Proof.
  intros H. destruct (level_downsamples img) as [|a F] eqn:HF.
  - left. split; [|reflexivity].
    unfold Slide_Sampler.get_level_and_downsampling,
      Slide_Sampler.level_diffs in H.
    rewrite HF in H. simpl in H. congruence.
  - right. split; [|discriminate].
    destruct (get_level_and_downsampling_cases img d t)
      as (m & i & f & _ & _ & E).
    + rewrite HF. discriminate.
    + rewrite E in H. rewrite <- HF.
      destruct (Qltb t m); [congruence|discriminate].
Qed.

End LevelResolverMore.


(** Two levels at the same distance of the desired downsampling. *)
Lemma get_level_and_downsampling_first_witness :
  Qabs (5 - 4) < Qabs (5 - 1).
Proof.
  apply (get_level_and_downsampling_first (slide_of [1; 4; 6] x80) 5 1 1 4
           eq_refl 0%nat 1); [apply Nat.lt_0_1|reflexivity].
Defined.

Lemma get_level_and_downsampling_raises_witness :
  (LevelNotFound [1; 4; 16; 32] = ValueError /\
   level_downsamples deep_slide = []) \/
  (LevelNotFound [1; 4; 16; 32] = LevelNotFound (level_downsamples deep_slide) /\
   level_downsamples deep_slide <> []).
Proof.
  apply (get_level_and_downsampling_raises deep_slide 30 0.1
           (LevelNotFound [1; 4; 16; 32])).
  reflexivity.
Defined.

(** ** The set-up of a sampler *)

Section SetupMore.

Context {Image : Type} {PIL : Imaging Image}.

Abbreviation session := (Slide_Sampler.t (Image := Image)).


(** The three methods that set a sampler up after [__init__] never change
    what [__init__] has set, whether they return or raise. *)
Theorem setup_keeps_slide (s : session) :
  (forall d t r,
     slide_attributes (snd (Slide_Sampler.generate_background_mask d t r s)) =
     slide_attributes s) /\
  (forall file,
     slide_attributes (snd (Slide_Sampler.add_annotation_mask file s)) =
     slide_attributes s) /\
  (forall content,
     slide_attributes
       (snd (Slide_Sampler.pickle_load_background_mask content s)) =
     slide_attributes s).
Proof.
  split; [|split].
  - intros d t r.
    unfold Slide_Sampler.generate_background_mask, Slide_Sampler.mbind,
      Slide_Sampler.call, Slide_Sampler.assign.
    destruct (Slide_Sampler.get_level_and_downsampling _ d t) as [p| |];
      reflexivity.
  - intros file.
    unfold Slide_Sampler.add_annotation_mask, Slide_Sampler.mbind,
      Slide_Sampler.call, Slide_Sampler.assign.
    destruct (open_slide file) as [m| |]; try reflexivity.
    cbn -[Qabs Qminus Qltb Slide_Sampler.get_level_and_downsampling].
    destruct (Slide_Sampler.get_level_and_downsampling m _ _) as [p| |];
      reflexivity.
  - intros content. reflexivity.
Qed.

(** When [add_annotation_mask] returns, the file has opened, the level of
    the annotation mask has the downsampling that is recorded, and this
    downsampling is within 0.1 of the desired one and within 0.001 of that
    of the slide. *)
Theorem add_annotation_mask_returns (s : session) (file : string) :
  fst (Slide_Sampler.add_annotation_mask file s) = Returned tt ->
  exists m lvl ds,
    open_slide file = Returned m /\
    nth_error (level_downsamples m) lvl = Some ds /\
    Qabs (Slide_Sampler.desired_downsampling s - ds) <= 0.1 /\
    Qabs (ds - Slide_Sampler.downsampling s) <= 0.001 /\
    snd (Slide_Sampler.add_annotation_mask file s) =
    Slide_Sampler.set_annotation_mask_downsampling ds
      (Slide_Sampler.set_annotation_mask_level lvl
         (Slide_Sampler.set_annotation_mask m
            (Slide_Sampler.set_annotation_mask_file file s))).
Proof.
  unfold Slide_Sampler.add_annotation_mask, Slide_Sampler.mbind,
    Slide_Sampler.call, Slide_Sampler.assign.
  destruct (open_slide file) as [m| |] eqn:Hopen; try discriminate.
  cbn -[Qabs Qminus Qltb Slide_Sampler.get_level_and_downsampling].
  destruct (Slide_Sampler.get_level_and_downsampling m _ _) as [[lvl ds]| |]
    eqn:Hres; try discriminate.
  cbn -[Qabs Qminus Qltb].
  destruct (Qltb _ _) eqn:E; [discriminate|]. intros _.
  apply Qltb_ge in E.
  destruct (resolved_within m _ _ lvl ds Hres) as [Hf Hle].
  exists m, lvl, ds. repeat split; assumption.
Qed.

(** What [pickle_background_mask] writes, [pickle_load_background_mask]
    reads back: on any sampler it sets the four attributes of the mask to
    those of the sampler that wrote them, and on that sampler itself it
    changes nothing; and a sampler that has read a mask writes the same. *)
Theorem pickle_round_trip (s s' : session)
    (content : ndarray Q * nat * Q * Z) :
  (Slide_Sampler.pickle_background_mask s = Returned content ->
   fst (Slide_Sampler.pickle_load_background_mask content s') = Returned tt /\
   background_attributes
     (snd (Slide_Sampler.pickle_load_background_mask content s')) =
   background_attributes s /\
   snd (Slide_Sampler.pickle_load_background_mask content s) = s) /\
  Slide_Sampler.pickle_background_mask
    (snd (Slide_Sampler.pickle_load_background_mask content s')) =
  Returned content.
Proof.
  split.
  - unfold Slide_Sampler.pickle_background_mask, Slide_Sampler.getattr.
    intros H. destruct s as [f0 w0 d0 z0 l0 ds0 wa ha bm bl bd bs af am al ad].
    simpl in H.
    destruct bm as [mask|]; [|discriminate].
    destruct bl as [lvl|]; [|discriminate].
    destruct bd as [d|]; [|discriminate].
    destruct bs as [sz|]; [|discriminate].
    simpl in H. injection H as <-.
    repeat split.
  - destruct content as [[[mask lvl] d] sz]. reflexivity.
Qed.

(** Without a background mask there is nothing to write. *)
Lemma pickle_background_mask_missing (s : session) :
  Slide_Sampler.background_mask s = None ->
  Slide_Sampler.pickle_background_mask s =
  Raised (AttributeError "background_mask").
Proof.
  intros H. unfold Slide_Sampler.pickle_background_mask. now rewrite H.
Qed.

End SetupMore.


Lemma add_annotation_mask_returns_witness :
  exists m lvl ds,
    open_slide "empty.tif" = Returned m /\
    nth_error (level_downsamples m) lvl = Some ds /\
    Qabs (Slide_Sampler.desired_downsampling masked_sampler - ds) <= 0.1 /\
    Qabs (ds - Slide_Sampler.downsampling masked_sampler) <= 0.001 /\
    snd (Slide_Sampler.add_annotation_mask "empty.tif" masked_sampler) =
    Slide_Sampler.set_annotation_mask_downsampling ds
      (Slide_Sampler.set_annotation_mask_level lvl
         (Slide_Sampler.set_annotation_mask m
            (Slide_Sampler.set_annotation_mask_file "empty.tif"
               masked_sampler))).
Proof.
  apply (add_annotation_mask_returns masked_sampler "empty.tif"). reflexivity.
Defined.

Lemma pickle_round_trip_witness :
  Slide_Sampler.pickle_background_mask masked_sampler = Returned all_tissue /\
  fst (Slide_Sampler.pickle_load_background_mask all_tissue sampler) =
  Returned tt /\
  background_attributes
    (snd (Slide_Sampler.pickle_load_background_mask all_tissue sampler)) =
  background_attributes masked_sampler /\
  snd (Slide_Sampler.pickle_load_background_mask all_tissue masked_sampler) =
  masked_sampler.
Proof.
  split; [reflexivity|].
  apply (proj1 (pickle_round_trip masked_sampler sampler all_tissue)).
  reflexivity.
Defined.

(** ** The rejection sampler *)

Section SamplerMore.

Context {Image : Type} {PIL : Imaging Image}.

Abbreviation session := (Slide_Sampler.t (Image := Image)).

Lemma random_choice_range (a r w : Z) :
  Slide_Sampler.random_choice a r = Returned w ->
  (0 <= w < a)%Z /\ w = (r mod a)%Z.
Proof.
  unfold Slide_Sampler.random_choice.
  destruct (a <=? 0)%Z eqn:E; [discriminate|].
  intros H. injection H as <-. apply Z.leb_gt in E.
  split; [apply Z.mod_pos_bound; lia|reflexivity].
Qed.

Lemma get_patch_step (self : session) (rw rh : Z) (tape : list Z) :
  Slide_Sampler.get_patch self (rw :: rh :: tape) =
  (w <- Slide_Sampler.random_choice (Slide_Sampler.width_available self) rw ;;
   h <- Slide_Sampler.random_choice (Slide_Sampler.height_available self) rh ;;
   c <- Slide_Sampler.background_coverage self w h ;;
   if np_gt c 0.9
   then Returned (patch_pixels self w h, patch_info self w h, tape)
   else Slide_Sampler.get_patch self tape).
Proof. reflexivity. Qed.

Lemma tape_induction (P : list Z -> Prop) :
  P [] -> (forall r, P [r]) ->
  (forall rw rh tape, P tape -> P (rw :: rh :: tape)) ->
  forall tape, P tape.
Proof.
  intros H0 H1 H2.
  assert (H : forall tape, P tape /\ forall r, P (r :: tape)).
  { induction tape as [|a tape [IH IH']].
    - split; [exact H0|exact H1].
    - split; [apply IH'|]. intros r. now apply H2. }
  intros tape. apply H.
Qed.

Lemma get_patch_returned (self : session) (tape : list Z) :
  forall p info tape',
    Slide_Sampler.get_patch self tape = Returned (p, info, tape') ->
    exists w h c,
      (0 <= w < Slide_Sampler.width_available self)%Z /\
      (0 <= h < Slide_Sampler.height_available self)%Z /\
      p = patch_pixels self w h /\ info = patch_info self w h /\
      Slide_Sampler.background_coverage self w h = Returned c /\
      np_gt c 0.9 = true.
Proof.
  induction tape as [|r|rw rh tape IH] using tape_induction;
    intros p info tape' H.
  - discriminate.
  - simpl in H. destruct (Slide_Sampler.random_choice _ r); discriminate.
  - rewrite get_patch_step in H.
    apply bind_returned in H. destruct H as (w & Hw & H).
    apply bind_returned in H. destruct H as (h & Hh & H).
    apply bind_returned in H. destruct H as (c & Hc & H).
    destruct (np_gt c 0.9) eqn:E.
    + injection H as <- <- <-. exists w, h, c.
      apply random_choice_range in Hw, Hh.
      repeat split; try tauto.
    + exact (IH _ _ _ H).
Qed.

(** The record that [get_patch] returns is the one of an origin inside the
    window of the sampler, with the file, the level and the size of the
    sampler and without a class, and the pixels are those read at this
    origin. *)
Theorem get_patch_in_window (self : session) (tape : list Z)
    (p : Image) (info : Info.t) (tape' : list Z) :
  Slide_Sampler.get_patch self tape = Returned (p, info, tape') ->
  (0 <= Info.w info < Slide_Sampler.width_available self)%Z /\
  (0 <= Info.h info < Slide_Sampler.height_available self)%Z /\
  Info.parent info = Slide_Sampler.wsi_file self /\
  Info.level info = Slide_Sampler.level self /\
  Info.size info = Slide_Sampler.size self /\
  Info.class info = None /\
  p = patch_pixels self (Info.w info) (Info.h info).
Proof.
  intros H.
  destruct (get_patch_returned self tape p info tape' H)
    as (w & h & c & Hw & Hh & -> & -> & _).
  simpl. repeat split; tauto.
Qed.



Lemma get_patch_refused (self : session) (pre : list Z) :
  refused self pre ->
  forall tape,
    Slide_Sampler.get_patch self (pre ++ tape) =
    Slide_Sampler.get_patch self tape.
Proof.
  induction 1 as [|rw rh pre Hacc _ IH]; intros tape; [reflexivity|].
  change ((rw :: rh :: pre) ++ tape) with (rw :: rh :: pre ++ tape).
  rewrite get_patch_step. unfold draw_accepted in Hacc.
  destruct (Slide_Sampler.random_choice _ rw) as [w| |]; try discriminate.
  cbn [bind] in *.
  destruct (Slide_Sampler.random_choice _ rh) as [h| |]; try discriminate.
  cbn [bind] in *.
  destruct (Slide_Sampler.background_coverage self w h) as [c| |];
    try discriminate.
  cbn [bind] in *. injection Hacc as ->. apply IH.
Qed.

(** The loop of [get_patch] passes over the draws that are refused and ends
    at the first one that is accepted: it returns the patch of this draw and
    the tape behind it.  While no draw is accepted it does not end. *)
Theorem get_patch_first_accepted (self : session) (pre : list Z)
    (rw rh : Z) (rest : list Z) :
  refused self pre ->
  Slide_Sampler.get_patch self pre = OutOfDraws /\
  (draw_accepted self rw rh = Returned true ->
   Slide_Sampler.get_patch self (pre ++ rw :: rh :: rest) =
   Returned
     (patch_pixels self (rw mod Slide_Sampler.width_available self)
                        (rh mod Slide_Sampler.height_available self),
      patch_info self (rw mod Slide_Sampler.width_available self)
                      (rh mod Slide_Sampler.height_available self),
      rest)).
Proof.
  intros Hpre. split.
  - rewrite <- (app_nil_r pre). now rewrite (get_patch_refused self pre Hpre).
  - intros Hacc. rewrite (get_patch_refused self pre Hpre), get_patch_step.
    unfold draw_accepted in Hacc.
    destruct (Slide_Sampler.random_choice _ rw) as [w| |] eqn:Hw;
      try discriminate.
    cbn [bind] in *.
    destruct (Slide_Sampler.random_choice _ rh) as [h| |] eqn:Hh;
      try discriminate.
    cbn [bind] in *.
    destruct (Slide_Sampler.background_coverage self w h) as [c| |];
      try discriminate.
    cbn [bind] in *. injection Hacc as ->.
    apply random_choice_range in Hw, Hh.
    destruct Hw as [_ ->], Hh as [_ ->]. reflexivity.
Qed.

(** The two ways in which [get_patch] raises at its first draw: on a slide
    that is too small for a patch [np.random.choice] refuses the empty
    window, and on a sampler without background mask the attribute is
    missing. *)
Theorem get_patch_raises (self : session) (rw rh : Z) (tape : list Z) :
  ((Slide_Sampler.width_available self <= 0)%Z ->
   Slide_Sampler.get_patch self (rw :: tape) = Raised ValueError) /\
  ((0 < Slide_Sampler.width_available self)%Z ->
   (0 < Slide_Sampler.height_available self)%Z ->
   Slide_Sampler.background_mask_level self = None ->
   Slide_Sampler.get_patch self (rw :: rh :: tape) =
   Raised (AttributeError "background_mask_level")).
Proof.
  split.
  - intros H. simpl. unfold Slide_Sampler.random_choice.
    apply Z.leb_le in H. now rewrite H.
  - intros HW HH Hm. rewrite get_patch_step.
    unfold Slide_Sampler.random_choice, Slide_Sampler.background_coverage.
    apply Z.leb_gt in HW, HH. rewrite HW, HH, Hm. reflexivity.
Qed.

Lemma background_coverage_returns (self : session) (w h : Z)
    (mask : ndarray Q) (lvl : nat) (sz : Z) :
  Slide_Sampler.background_mask self = Some mask ->
  Slide_Sampler.background_mask_level self = Some lvl ->
  Slide_Sampler.size_at_background_level self = Some sz ->
  (lvl < length (level_downsamples (Slide_Sampler.wsi self)))%nat ->
  exists c, Slide_Sampler.background_coverage self w h = Returned c.
Proof.
  intros Hm Hl Hs Hlvl.
  unfold Slide_Sampler.background_coverage, Slide_Sampler.level_converter,
    getitem.
  rewrite Hm, Hl, Hs. cbn [bind Slide_Sampler.getattr].
  destruct (nth_error (level_downsamples (Slide_Sampler.wsi self)) 0)
    as [d0|] eqn:H0.
  2: { apply nth_error_None in H0. lia. }
  destruct (nth_error (level_downsamples (Slide_Sampler.wsi self)) lvl)
    as [dl|] eqn:H1.
  2: { apply nth_error_None in H1. lia. }
  cbn [bind]. eexists. reflexivity.
Qed.

(** On a sampler with a window, a background mask and a level of the slide
    for it, [get_patch] never raises: it returns, or it goes on drawing. *)
Theorem get_patch_never_raises (self : session) (mask : ndarray Q)
    (lvl : nat) (sz : Z) (tape : list Z) (e : PyError) :
  (0 < Slide_Sampler.width_available self)%Z ->
  (0 < Slide_Sampler.height_available self)%Z ->
  Slide_Sampler.background_mask self = Some mask ->
  Slide_Sampler.background_mask_level self = Some lvl ->
  Slide_Sampler.size_at_background_level self = Some sz ->
  (lvl < length (level_downsamples (Slide_Sampler.wsi self)))%nat ->
  Slide_Sampler.get_patch self tape <> Raised e.
Proof.
  intros HW HH Hm Hl Hs Hlvl.
  apply Z.leb_gt in HW, HH.
  induction tape as [|r|rw rh tape IH] using tape_induction.
  - discriminate.
  - simpl. unfold Slide_Sampler.random_choice. rewrite HW. discriminate.
  - rewrite get_patch_step. unfold Slide_Sampler.random_choice.
    rewrite HW, HH. cbn [bind].
    destruct (background_coverage_returns self
                (rw mod Slide_Sampler.width_available self)
                (rh mod Slide_Sampler.height_available self)
                mask lvl sz Hm Hl Hs Hlvl) as [c ->].
    cbn [bind]. destruct (np_gt c 0.9); [discriminate|exact IH].
Qed.

End SamplerMore.

Lemma get_patch_in_window_witness :
  (0 <= 5 < Slide_Sampler.width_available masked_sampler)%Z /\
  (0 <= 9 < Slide_Sampler.height_available masked_sampler)%Z /\
  "slide.svs"%string = Slide_Sampler.wsi_file masked_sampler /\
  1%nat = Slide_Sampler.level masked_sampler /\
  2%Z = Slide_Sampler.size masked_sampler /\
  @None Z = None /\
  uniform x80 (2, 2)%Z = patch_pixels masked_sampler 5 9.
Proof.
  apply (get_patch_in_window masked_sampler [5; 9]%Z (uniform x80 (2, 2)%Z)
           (patch_info masked_sampler 5 9) []).
  reflexivity.
Defined.


Lemma get_patch_first_accepted_witness :
  refused half_sampler [5; 9; 2; 20]%Z /\
  Slide_Sampler.get_patch half_sampler [5; 9; 2; 20]%Z = OutOfDraws /\
  Slide_Sampler.get_patch half_sampler ([5; 9; 2; 20] ++ 30 :: 9 :: [7])%Z =
  Returned (patch_pixels half_sampler 30 9, patch_info half_sampler 30 9,
            [7%Z]).
Proof.
  assert (Hpre : refused half_sampler [5; 9; 2; 20]%Z).
  { apply refused_draw; [reflexivity|].
    apply refused_draw; [reflexivity|]. apply refused_nil. }
  split; [exact Hpre|].
  destruct (get_patch_first_accepted half_sampler [5; 9; 2; 20]%Z 30 9 [7%Z]
              Hpre) as [Hout Hacc].
  split; [exact Hout|]. apply Hacc. reflexivity.
Defined.

Lemma get_patch_raises_witness :
  Slide_Sampler.get_patch large_patch_sampler [5; 9]%Z = Raised ValueError /\
  Slide_Sampler.get_patch sampler [5; 9]%Z =
  Raised (AttributeError "background_mask_level").
Proof.
  split.
  - apply (proj1 (get_patch_raises large_patch_sampler 5 9 [9%Z])).
    discriminate.
  - apply (proj2 (get_patch_raises sampler 5 9 [])); reflexivity.
Defined.

Lemma get_patch_never_raises_witness :
  Slide_Sampler.get_patch half_sampler [5; 9; 2]%Z <> Raised ValueError.
Proof.
  apply (get_patch_never_raises half_sampler
           (repeat (repeat 0 5 ++ repeat 1 5) 10) 1 2 [5; 9; 2]%Z ValueError);
    try reflexivity.
  simpl. lia.
Defined.

(** ** The background test on uniform masks *)

Section UniformMasks.

Context {Image : Type} {PIL : Imaging Image}.

Abbreviation session := (Slide_Sampler.t (Image := Image)).

Lemma Forall_first {A : Type} (P : A -> Prop) (n : nat) (l : list A) :
  Forall P l -> Forall P (firstn n l).
Proof.
  intros H. revert n. induction H as [|x l Hx _ IH]; intros [|n]; simpl;
    constructor; auto.
Qed.

Lemma Forall_skip {A : Type} (P : A -> Prop) (n : nat) (l : list A) :
  Forall P l -> Forall P (skipn n l).
Proof.
  intros H. revert n. induction H as [|x l Hx Hl IH]; intros [|n]; simpl;
    auto.
Qed.

Lemma Forall_slice {A : Type} (P : A -> Prop) (a b : nat) (l : list A) :
  Forall P l -> Forall P (slice a b l).
Proof.
  intros H. unfold slice. now apply Forall_first, Forall_skip.
Qed.

Lemma Forall_slice2 {A : Type} (P : A -> Prop) (i i2 j j2 : nat)
    (a : ndarray A) :
  Forall (Forall P) a -> Forall (Forall P) (slice2 i i2 j j2 a).
Proof.
  intros H. unfold slice2. apply Forall_map.
  apply Forall_slice. eapply Forall_impl; [|exact H].
  intros row. apply Forall_slice.
Qed.

Lemma fold_Qplus_zero (l : list Q) :
  Forall (fun v => v == 0) l -> forall a, fold_left Qplus l a == a.
Proof.
  induction 1 as [|v l Hv _ IH]; intros a; simpl; [reflexivity|].
  rewrite IH, Hv. ring.
Qed.

Lemma np_sum_zero (a : ndarray Q) :
  Forall (Forall (fun v => v == 0)) a -> np_sum a == 0.
Proof.
  intros H. unfold np_sum, Qsum. apply fold_Qplus_zero.
  now apply Forall_concat.
Qed.

Lemma np_divide_zero (x y : Q) :
  x == 0 -> np_gt (np_divide x y) 0.9 = false.
Proof.
  intros Hx. unfold np_divide.
  assert (H0 : Qltb 0 x = false) by (apply Qltb_ge; rewrite Hx; apply Qle_refl).
  assert (H1 : Qltb x 0 = false) by (apply Qltb_ge; rewrite Hx; apply Qle_refl).
  rewrite H0, H1. destruct (Qeq_bool y 0); [reflexivity|].
  simpl. apply Qltb_ge.
  assert (E : x / y == 0) by (rewrite Hx; unfold Qdiv; ring).
  rewrite E. discriminate.
Qed.

(** On a background mask without tissue, all of whose values are zero,
    [get_patch] never returns, whatever it draws. *)
Theorem get_patch_no_tissue (self : session) (mask : ndarray Q)
    (tape : list Z) :
  Slide_Sampler.background_mask self = Some mask ->
  Forall (Forall (fun v => v == 0)) mask ->
  returned (Slide_Sampler.get_patch self tape) = false.
Proof.
  intros Hm Hzero.
  induction tape as [|r|rw rh tape IH] using tape_induction.
  - reflexivity.
  - simpl. destruct (Slide_Sampler.random_choice _ r); reflexivity.
  - rewrite get_patch_step.
    destruct (Slide_Sampler.random_choice _ rw) as [w| |]; try reflexivity.
    cbn [bind].
    destruct (Slide_Sampler.random_choice _ rh) as [h| |]; try reflexivity.
    cbn [bind].
    destruct (Slide_Sampler.background_coverage self w h) as [c| |] eqn:Hc;
      try reflexivity.
    cbn [bind].
    destruct (background_coverage_unfold self w h c Hc)
      as (lvl & mask' & s & i & j & _ & Hm' & _ & _ & _ & ->).
    rewrite Hm in Hm'. injection Hm' as <-.
    rewrite np_divide_zero; [exact IH|].
    apply np_sum_zero. now apply Forall_slice2.
Qed.







End UniformMasks.

Lemma get_patch_no_tissue_witness :
  returned (Slide_Sampler.get_patch blank_sampler [5; 9; 7; 3]%Z) = false.
Proof.
  apply (get_patch_no_tissue blank_sampler (repeat (repeat 0 10) 10)
           [5; 9; 7; 3]%Z).
  - reflexivity.
  - repeat constructor.
Defined.


(** ** The classed sampler and the accumulator *)

Section ClassedMore.

Context {Image : Type} {PIL : Imaging Image}.

Abbreviation session := (Slide_Sampler.t (Image := Image)).

Lemma get_classed_patch_loop_returned (self : session) (pc : option Z) :
  forall fuel tape p info tape',
    Slide_Sampler.get_classed_patch_loop fuel self pc tape =
    Returned (p, info, tape') ->
    exists info0 tape0 c,
      Slide_Sampler.get_patch self tape0 = Returned (p, info0, tape') /\
      info = Info.set_class c info0 /\ (c = 0 \/ c = 1)%Z /\
      Slide_Sampler.class_allowed pc c = true /\
      (2 + length tape' <= length tape)%nat.
Proof.
  induction fuel as [|fuel IH]; intros tape p info tape' H; [discriminate|].
  simpl in H.
  apply bind_returned in H. destruct H as ([[p0 i0] t0] & Hp & H).
  cbn [fst snd] in H.
  apply bind_returned in H. destruct H as (f & Hf & H).
  destruct (get_patch_accepted self tape _ _ _ Hp) as (_ & _ & Hlen).
  destruct (np_lt f 0.1 && Slide_Sampler.class_allowed pc 0) eqn:E0;
    destruct (np_gt f 0.9 && Slide_Sampler.class_allowed pc 1) eqn:E1;
    cbn [fst snd] in H.
  - injection H as <- <- <-. apply andb_true_iff in E1.
    exists i0, tape, 1%Z. repeat split; try tauto.
  - injection H as <- <- <-. apply andb_true_iff in E0.
    exists i0, tape, 0%Z. repeat split; try tauto.
  - injection H as <- <- <-. apply andb_true_iff in E1.
    exists i0, tape, 1%Z. repeat split; try tauto.
  - destruct (IH _ _ _ _ H) as (info0 & tape0 & c & H1 & H2 & H3 & H4 & H5).
    exists info0, tape0, c. repeat split; try assumption. lia.
Qed.

Lemma classed_record (self : session) (pc : option Z) (tape : list Z)
    (p : Image) (info : Info.t) (tape' : list Z) :
  Slide_Sampler.get_classed_patch self pc tape = Returned (p, info, tape') ->
  exists w h c cov,
    (0 <= w < Slide_Sampler.width_available self)%Z /\
    (0 <= h < Slide_Sampler.height_available self)%Z /\
    (c = 0 \/ c = 1)%Z /\
    info = Info.set_class c (patch_info self w h) /\
    p = patch_pixels self w h /\
    Slide_Sampler.background_coverage self w h = Returned cov /\
    np_gt cov 0.9 = true /\
    (2 + length tape' <= length tape)%nat.
Proof.
  intros H.
  destruct (get_classed_patch_loop_returned self pc _ _ _ _ _ H)
    as (info0 & tape0 & c & Hp & -> & Hc & _ & Hlen).
  destruct (get_patch_returned self tape0 p info0 tape' Hp)
    as (w & h & cov & Hw & Hh & -> & -> & Hcov & Hgt).
  exists w, h, c, cov. repeat split; try tauto.
Qed.


(** A request for a class that is neither 0 nor 1 is never answered:
    [get_classed_patch] does not return for it. *)
Theorem get_classed_patch_unknown_class (self : session) (k : Z)
    (tape : list Z) :
  k <> 0%Z -> k <> 1%Z ->
  returned (Slide_Sampler.get_classed_patch self (Some k) tape) = false.
Proof.
  intros H0 H1.
  destruct (Slide_Sampler.get_classed_patch self (Some k) tape)
    as [[[p info] tape']| |] eqn:H; try reflexivity.
  exfalso.
  destruct (get_classed_patch_loop_returned self (Some k) _ _ _ _ _ H)
    as (_ & _ & c & _ & _ & Hc & Hal & _).
  apply class_allowed_requested in Hal. lia.
Qed.

(** On a sampler without annotation mask [get_classed_patch] raises the
    error of the missing attribute as soon as [get_patch] has returned its
    first patch. *)
Theorem get_classed_patch_no_annotation (self : session) (pc : option Z)
    (tape : list Z) (p : Image) (info : Info.t) (tape' : list Z) :
  Slide_Sampler.annotation_mask self = None ->
  Slide_Sampler.get_patch self tape = Returned (p, info, tape') ->
  Slide_Sampler.get_classed_patch self pc tape =
  Raised (AttributeError "annotation_mask").
Proof.
  intros Hann Hp. unfold Slide_Sampler.get_classed_patch.
  cbn [Slide_Sampler.get_classed_patch_loop]. rewrite Hp. cbn [bind fst snd].
  unfold Slide_Sampler.annotation_fraction. now rewrite Hann.
Qed.

Lemma draws_records (self : session) (n : nat) (tape : list Z)
    (infos : list Info.t) (tape' : list Z) :
  draws self n tape infos tape' ->
  Forall (fun info =>
            (Info.class info = Some 0%Z \/ Info.class info = Some 1%Z) /\
            (0 <= Info.w info < Slide_Sampler.width_available self)%Z /\
            (0 <= Info.h info < Slide_Sampler.height_available self)%Z /\
            Info.parent info = Slide_Sampler.wsi_file self /\
            Info.level info = Slide_Sampler.level self /\
            Info.size info = Slide_Sampler.size self) infos /\
  (2 * n + length tape' <= length tape)%nat.
Proof.
  induction 1 as [tape|n tape p info tape1 infos tape2 Hg _ [IH IHlen]].
  - split; [constructor|simpl; lia].
  - destruct (classed_record self None tape p info tape1 Hg)
      as (w & h & c & cov & Hw & Hh & Hc & -> & _ & _ & _ & Hlen).
    split; [|lia]. constructor; [|exact IH].
    simpl. repeat split; try tauto.
    destruct Hc as [-> | ->]; [now left|now right].
Qed.

(** Every row of the frame of [get_basic_patchframe] has the class 0 or 1,
    an origin inside the window, and the file, the level and the size of
    the sampler; and the frame has cost two random numbers a row at least. *)
Theorem get_basic_patchframe_records (self : session) (n : nat)
    (tape : list Z) (frame : DataFrame) (tape' : list Z) :
  Slide_Sampler.get_basic_patchframe self n tape = Returned (frame, tape') ->
  Forall (fun info =>
            (Info.class info = Some 0%Z \/ Info.class info = Some 1%Z) /\
            (0 <= Info.w info < Slide_Sampler.width_available self)%Z /\
            (0 <= Info.h info < Slide_Sampler.height_available self)%Z /\
            Info.parent info = Slide_Sampler.wsi_file self /\
            Info.level info = Slide_Sampler.level self /\
            Info.size info = Slide_Sampler.size self) (rows frame) /\
  (2 * n + length tape' <= length tape)%nat.
Proof.
  unfold Slide_Sampler.get_basic_patchframe. intros H.
  apply patchframe_loop_draws in H; [|reflexivity].
  destruct H as (infos & Hd & ->). simpl.
  exact (draws_records self n tape infos tape' Hd).
Qed.

End ClassedMore.


Lemma get_classed_patch_unknown_class_witness :
  returned (Slide_Sampler.get_classed_patch annotated_sampler (Some 2%Z)
              [5; 9; 7; 3]%Z) = false.
Proof.
  apply (get_classed_patch_unknown_class annotated_sampler 2 [5; 9; 7; 3]%Z);
    discriminate.
Defined.

Lemma get_classed_patch_no_annotation_witness :
  Slide_Sampler.get_classed_patch masked_sampler None [5; 9]%Z =
  Raised (AttributeError "annotation_mask").
Proof.
  apply (get_classed_patch_no_annotation masked_sampler None [5; 9]%Z
           (uniform x80 (2, 2)%Z) (patch_info masked_sampler 5 9) []);
    reflexivity.
Defined.

Lemma get_basic_patchframe_records_witness :
  Forall (fun info =>
            (Info.class info = Some 0%Z \/ Info.class info = Some 1%Z) /\
            (0 <= Info.w info < Slide_Sampler.width_available annotated_sampler)%Z /\
            (0 <= Info.h info < Slide_Sampler.height_available annotated_sampler)%Z /\
            Info.parent info = Slide_Sampler.wsi_file annotated_sampler /\
            Info.level info = Slide_Sampler.level annotated_sampler /\
            Info.size info = Slide_Sampler.size annotated_sampler)
    [Info.set_class 0 (patch_info annotated_sampler 5 9);
     Info.set_class 0 (patch_info annotated_sampler 7 3)] /\
  (2 * 2 + length (@nil Z) <= length [5; 9; 7; 3]%Z)%nat.
Proof.
  apply (get_basic_patchframe_records annotated_sampler 2 [5; 9; 7; 3]%Z
           {| columns := Slide_Sampler.patchframe_columns;
              rows := [Info.set_class 0 (patch_info annotated_sampler 5 9);
                       Info.set_class 0 (patch_info annotated_sampler 7 3)] |}
           []).
  reflexivity.
Defined.

(** ** The coordinate converter *)

Section ConverterMore.

Context {Image : Type}.

Abbreviation session := (Slide_Sampler.t (Image := Image)).



(** For a level that the slide does not have, [level_converter] raises
    [IndexError] in both of its modes. *)
Theorem level_converter_index_error (self : session) (x : Q)
    (lvl_in lvl_out : nat) :
  (length (level_downsamples (Slide_Sampler.wsi self)) <= lvl_in)%nat \/
  (length (level_downsamples (Slide_Sampler.wsi self)) <= lvl_out)%nat ->
  Slide_Sampler.level_converter self x lvl_in lvl_out true =
  Raised IndexError /\
  Slide_Sampler.level_converter self x lvl_in lvl_out false =
  Raised IndexError.
Proof.
  intros H. unfold Slide_Sampler.level_converter, getitem.
  destruct H as [H|H]; apply nth_error_None in H; rewrite H.
  - split; reflexivity.
  - destruct (nth_error _ lvl_in); split; reflexivity.
Qed.



End ConverterMore.


Lemma level_converter_index_error_witness :
  Slide_Sampler.level_converter sampler 7 0 2 true = Raised IndexError /\
  Slide_Sampler.level_converter sampler 7 0 2 false = Raised IndexError.
Proof.
  apply (level_converter_index_error sampler 7 0 2). right. simpl. lia.
Defined.



(** ** The annotation fraction and the errors of the mask pipeline *)

Section AnnotationMore.

Context {Image : Type} {PIL : Imaging Image} {SK : Skimage}.

Abbreviation session := (Slide_Sampler.t (Image := Image)).


Lemma force_patch_float01_returns (x : ndarray byte) :
  concat x <> [] ->
  exists g : byte -> Q,
    Slide_Sampler.force_patch_float01 x = Returned (map (map g) x) /\
    forall b, In b (concat x) -> 0 <= g b <= 1.
Proof.
  intros Hne. destruct (ndarray_max_spec x Hne) as (m & Hmax & [Hin Hle]).
  unfold Slide_Sampler.force_patch_float01. rewrite Hmax. cbn [bind].
  fold (byte_val m).
  destruct (Qltb 1 (byte_val m)) eqn:E.
  - exists (fun b => byte_val b / 255). rewrite div255_astype.
    split; [reflexivity|]. intros b _.
    destruct (byte_val_range b) as [H0 H1]. split.
    + apply Qle_shift_div_l; [reflexivity|]. now rewrite Qmult_0_l.
    + apply Qle_shift_div_r; [reflexivity|]. now rewrite Qmult_1_l.
  - apply Qltb_ge in E. exists byte_val. split; [reflexivity|].
    intros b Hb. destruct (byte_val_range b) as [H0 _]. split; [exact H0|].
    eapply Qle_trans; [apply byte_val_le, Hle, Hb|exact E].
Qed.

(** [force_patch_float01] raises [ValueError] on an array without elements
    and on no other array; what it returns has the rows of its argument,
    each of the same length. *)
Theorem force_patch_float01_shape (x : ndarray byte) :
  (concat x = [] ->
   Slide_Sampler.force_patch_float01 x = Raised ValueError) /\
  (forall y, Slide_Sampler.force_patch_float01 x = Returned y ->
     concat x <> [] /\ map (@length Q) y = map (@length byte) x) /\
  (concat x <> [] -> returned (Slide_Sampler.force_patch_float01 x) = true).
Proof.
  split; [|split].
  - intros H. unfold Slide_Sampler.force_patch_float01, ndarray_max.
    now rewrite H.
  - intros y Hy. destruct (concat x) as [|b r] eqn:Hc.
    + unfold Slide_Sampler.force_patch_float01, ndarray_max in Hy.
      rewrite Hc in Hy. discriminate.
    + split; [discriminate|].
      destruct (force_patch_float01_returns x) as (g & Hg & _).
      * rewrite Hc. discriminate.
      * rewrite Hg in Hy. injection Hy as <-. rewrite map_map.
        apply map_ext. intros row. apply length_map.
  - intros Hne. destruct (force_patch_float01_returns x Hne) as (g & -> & _).
    reflexivity.
Qed.



(** For a level that the slide does not have, the mask pipeline raises
    [IndexError]; for a level that it has, an exception of the threshold of
    the library is the exception of the pipeline. *)
Theorem generate_background_mask_errors (wsi : OpenSlide Image)
    (level : nat) :
  ((length (level_dimensions wsi) <= level)%nat ->
   generate_background_mask wsi level = Raised IndexError) /\
  (forall size e,
     nth_error (level_dimensions wsi) level = Some size ->
     threshold_otsu
       (map (map (fun p => snd (fst p)))
            (convert_colorspace_RGB_HSV (rendering wsi level size))) =
     Raised e ->
     generate_background_mask wsi level = Raised e).
Proof.
  split.
  - intros H. apply nth_error_None in H.
    unfold generate_background_mask, getitem. now rewrite H.
  - intros size e Hsize He.
    rewrite (generate_background_mask_unfold wsi level size Hsize).
    unfold morphological_result. now rewrite He.
Qed.

End AnnotationMore.

Lemma force_patch_float01_shape_witness :
  Slide_Sampler.force_patch_float01 [[]; []] = Raised ValueError /\
  (concat [[x00; xff]; [x01; x02]] <> [] /\
   map (@length Q) [[0 / 255; 255 / 255]; [1 / 255; 2 / 255]] =
   map (@length byte) [[x00; xff]; [x01; x02]]).
Proof.
  split.
  - apply (proj1 (force_patch_float01_shape [[]; []])). reflexivity.
  - apply (proj1 (proj2 (force_patch_float01_shape [[x00; xff]; [x01; x02]]))).
    reflexivity.
Defined.


Lemma generate_background_mask_errors_witness :
  generate_background_mask (SK := skimage_strict) slide 2 = Raised IndexError /\
  generate_background_mask (SK := skimage_strict) (slide_of [1; 4] xff) 1 =
  Raised ValueError.
Proof.
  split.
  - apply (proj1 (generate_background_mask_errors (SK := skimage_strict)
                    slide 2)).
    simpl. lia.
  - apply (proj2 (generate_background_mask_errors (SK := skimage_strict)
                    (slide_of [1; 4] xff) 1) (10, 10)%Z ValueError);
      reflexivity.
Defined.
